(** * bridge/vni.c: VNI filter requests and dumps of a vxlan device

    A shallow embedding of [bridge/vni.c] of iproute2 and the properties of
    its range parser, entry encoder, request builder and reply decoder.

    Conventions of the embedding.
    - C integers are [Z]; every conversion to a fixed width is written out
      ([u32], [int32], ...).
    - A C string is the sequence of its characters before the terminating
      NUL: a [string] where the code only compares it, a [list ascii] where
      the code scans or cuts it.
    - A netlink attribute is a record of its type, its payload bytes and the
      attribute sequence found when the payload is walked with
      [RTA_OK]/[RTA_NEXT]; byte offsets, padding and buffer capacity are not
      part of the model.
    - Output is a trace of the calls made to the printing library. *)

From Stdlib Require Import ZArith String Ascii List Bool Lia.
From Stdlib Require Import Strings.Byte.
From Equations Require Import Equations.
Import ListNotations.

Local Open Scope string_scope.
Local Open Scope list_scope.
Local Open Scope Z_scope.

(* ================================================================== *)
(** ** Machine integers and byte order *)
(* ================================================================== *)

Module Mach.

(** Conversion to [__u16], [__u32] and [__u64]. *)
Definition u16 (z : Z) : Z := z mod 2 ^ 16.
Definition u32 (z : Z) : Z := z mod 2 ^ 32.
Definition u64 (z : Z) : Z := z mod 2 ^ 64.

(** Conversion to [int] (32 bits, two's complement). *)
Definition int32 (z : Z) : Z := (z + 2 ^ 31) mod 2 ^ 32 - 2 ^ 31.

Definition LONG_MAX : Z := 2 ^ 63 - 1.
Definition LONG_MIN : Z := - 2 ^ 63.

Definition byte_val (b : byte) : Z := Z.of_N (Byte.to_N b).

Definition byte_of (z : Z) : byte :=
  match Byte.of_N (Z.to_N (z mod 256)) with
  | Some b => b
  | None => x00
  end.

(** The value of a byte sequence, least significant byte first. *)
Fixpoint le_decode (l : list byte) : Z :=
  match l with
  | [] => 0
  | b :: r => byte_val b + 256 * le_decode r
  end.

(** The value of a byte sequence, most significant byte first. *)
Definition be_decode (l : list byte) : Z := le_decode (rev l).

(** The [n] low bytes of [z], least significant first. *)
Fixpoint le_encode (n : nat) (z : Z) : list byte :=
  match n with
  | O => []
  | S n' => byte_of z :: le_encode n' (z / 256)
  end.

Definition be_encode (n : nat) (z : Z) : list byte := rev (le_encode n z).

(** What a load of [n] bytes at the start of [l] sees.  A payload shorter
    than the load makes the C code read the bytes that follow it in the
    buffer; the model reads zero bytes there. *)
Definition load (n : nat) (l : list byte) : list byte :=
  firstn n (l ++ repeat x00 n).

Definition all_zero (l : list byte) : bool :=
  forallb (fun b => Byte.eqb b x00) l.

End Mach.
Import Mach.

(** The byte order of the host is a parameter of everything that moves
    integers in and out of attribute payloads. *)
Inductive byte_order := LittleEndian | BigEndian.

Definition host_decode (bo : byte_order) (l : list byte) : Z :=
  match bo with LittleEndian => le_decode l | BigEndian => be_decode l end.

Definition host_encode (bo : byte_order) (n : nat) (z : Z) : list byte :=
  match bo with LittleEndian => le_encode n z | BigEndian => be_encode n z end.

(** [ntohl(x)]: the bytes of [x] in the order of the host, read most
    significant byte first. *)
Definition ntohl (bo : byte_order) (x : Z) : Z :=
  be_decode (host_encode bo 4 x).

(** [IN_MULTICAST(a)] of <netinet/in.h>. *)
Definition IN_MULTICAST (a : Z) : bool :=
  Z.land a 0xf0000000 =? 0xe0000000.

(** [IN6_IS_ADDR_UNSPECIFIED] and [IN6_IS_ADDR_MULTICAST] of <netinet/in.h>,
    on the sixteen bytes of a [struct in6_addr]. *)
Definition IN6_IS_ADDR_UNSPECIFIED (addr : list byte) : bool := all_zero addr.

Definition IN6_IS_ADDR_MULTICAST (addr : list byte) : bool :=
  match addr with
  | b :: _ => Byte.eqb b xff
  | [] => false
  end.

(* ================================================================== *)
(** ** The C library functions the parser relies on *)
(* ================================================================== *)

Module Libc.

Definition isspace (c : ascii) : bool :=
  let n := N_of_ascii c in
  (N.eqb n 32 || (N.leb 9 n && N.leb n 13))%bool.

Definition isdigit (c : ascii) : bool :=
  let n := N_of_ascii c in (N.leb 48 n && N.leb n 57)%bool.

Definition digit_val (c : ascii) : Z := Z.of_N (N_of_ascii c) - 48.

Fixpoint skip_space (s : list ascii) : list ascii :=
  match s with
  | c :: r => if isspace c then skip_space r else s
  | [] => []
  end.

(** The value of the longest prefix of decimal digits, on top of [acc]. *)
Fixpoint digits (acc : Z) (s : list ascii) : Z :=
  match s with
  | c :: r => if isdigit c then digits (10 * acc + digit_val c) r else acc
  | [] => acc
  end.

Definition clamp (lo hi z : Z) : Z := Z.max lo (Z.min hi z).

(** [strtol(s, NULL, 10)]: white space, an optional sign, decimal digits;
    0 when there is no digit; saturating at the bounds of [long]. *)
Definition strtol10 (s : list ascii) : Z :=
  let s := skip_space s in
  let '(neg, s) :=
    match s with
    | "-"%char :: r => (true, r)
    | "+"%char :: r => (false, r)
    | _ => (false, s)
    end in
  let v := digits 0 s in
  clamp LONG_MIN LONG_MAX (if neg then - v else v).

(** [atoi(s)], which the C library defines as [(int) strtol(s, NULL, 10)]. *)
Definition atoi (s : list ascii) : Z := int32 (strtol10 s).

(** [strchr(s, c)]: the string cut at the first [c], when there is one:
    what is before it and what is after it. *)
Fixpoint strchr (s : list ascii) (c : ascii)
  : option (list ascii * list ascii) :=
  match s with
  | [] => None
  | a :: r =>
      if Ascii.eqb a c then Some ([], r)
      else match strchr r c with
           | Some (pre, post) => Some (a :: pre, post)
           | None => None
           end
  end.

(** [strspn]-style skip of the leading delimiters. *)
Fixpoint skip_delim (s : list ascii) (delim : ascii) : list ascii :=
  match s with
  | a :: r => if Ascii.eqb a delim then skip_delim r delim else s
  | [] => []
  end.

(** One call of [strtok] with the single delimiter [delim] on the saved
    position [olds]: [None] when only delimiters are left, otherwise the
    token and the new saved position (past the delimiter that was
    overwritten with NUL, or the end of the string). *)
Definition strtok (olds : list ascii) (delim : ascii)
  : option (list ascii * list ascii) :=
  match skip_delim olds delim with
  | [] => None
  | tok_start =>
      match strchr tok_start delim with
      | Some (tok, rest) => Some (tok, rest)
      | None => Some (tok_start, [])
      end
  end.

End Libc.
Import Libc.

(** [strtok] hands back a saved position strictly shorter than the one it
    was given: the loop over the tokens terminates. *)
Lemma skip_delim_length s c : (length (skip_delim s c) <= length s)%nat.
Proof.
  induction s as [|a r IH]; simpl; [lia|].
  destruct (Ascii.eqb a c); simpl; lia.
Qed.

Lemma strchr_length s c pre post :
  strchr s c = Some (pre, post) -> (length post < length s)%nat.
Proof.
  revert pre post; induction s as [|a r IH]; simpl; intros pre post H.
  - discriminate.
  - destruct (Ascii.eqb a c).
    + injection H as <- <-. lia.
    + destruct (strchr r c) as [[p q]|]; [|discriminate].
      injection H as <- <-. specialize (IH _ _ eq_refl). lia.
Qed.

Lemma strtok_length olds c tok olds' :
  strtok olds c = Some (tok, olds') -> (length olds' < length olds)%nat.
Proof.
  unfold strtok. pose proof (skip_delim_length olds c) as Hs.
  destruct (skip_delim olds c) as [|a r] eqn:E; [discriminate|].
  destruct (strchr (a :: r) c) as [[p q]|] eqn:Ec; intros [= <- <-].
  - apply strchr_length in Ec. lia.
  - simpl in *. lia.
Qed.

(* ================================================================== *)
(** ** Netlink attributes and messages *)
(* ================================================================== *)

(** [struct rtattr] with its payload.  [rta_data] is the payload as bytes
    ([RTA_DATA], [RTA_PAYLOAD]); [rta_nested] is the attribute sequence an
    [RTA_OK]/[RTA_NEXT] walk finds in that payload. *)
#[warnings="-register-all"]
Inductive rtattr : Type :=
  mk_rtattr { rta_type : Z; rta_data : list byte; rta_nested : list rtattr }.

(** Modelled from the spec: the constants of the kernel headers
    (linux/netlink.h, linux/rtnetlink.h, linux/if_link.h, linux/socket.h)
    that vni.c names; the headers are not under src/, the values are those
    of the kernel ABI. *)
Definition NLA_F_NESTED : Z := Z.shiftl 1 15.
Definition NLA_F_NET_BYTEORDER : Z := Z.shiftl 1 14.
Definition NLA_TYPE_MASK : Z := Z.lnot (Z.lor NLA_F_NESTED NLA_F_NET_BYTEORDER).
Definition NLM_F_REQUEST : Z := 1.
Definition NLMSG_HDRLEN : Z := 16.
Definition sizeof_tunnel_msg : Z := 8.
Definition NLMSG_LENGTH (len : Z) : Z := len + NLMSG_HDRLEN.

Definition RTM_NEWTUNNEL : Z := 120.
Definition RTM_DELTUNNEL : Z := 121.
Definition RTM_GETTUNNEL : Z := 122.

Definition AF_UNSPEC : Z := 0.
Definition AF_INET : Z := 2.
Definition AF_BRIDGE : Z := 7.
Definition PF_BRIDGE : Z := AF_BRIDGE.
Definition AF_INET6 : Z := 10.

Definition VXLAN_VNIFILTER_ENTRY : Z := 1.

Definition VXLAN_VNIFILTER_ENTRY_START : Z := 1.
Definition VXLAN_VNIFILTER_ENTRY_END : Z := 2.
Definition VXLAN_VNIFILTER_ENTRY_GROUP : Z := 3.
Definition VXLAN_VNIFILTER_ENTRY_GROUP6 : Z := 4.
Definition VXLAN_VNIFILTER_ENTRY_STATS : Z := 5.
Definition VXLAN_VNIFILTER_ENTRY_MAX : Z := 5.

Definition VNIFILTER_ENTRY_STATS_RX_BYTES : Z := 1.
Definition VNIFILTER_ENTRY_STATS_RX_PKTS : Z := 2.
Definition VNIFILTER_ENTRY_STATS_RX_DROPS : Z := 3.
Definition VNIFILTER_ENTRY_STATS_RX_ERRORS : Z := 4.
Definition VNIFILTER_ENTRY_STATS_TX_BYTES : Z := 5.
Definition VNIFILTER_ENTRY_STATS_TX_PKTS : Z := 6.
Definition VNIFILTER_ENTRY_STATS_TX_DROPS : Z := 7.
Definition VNIFILTER_ENTRY_STATS_TX_ERRORS : Z := 8.
Definition VNIFILTER_ENTRY_STATS_MAX : Z := 9.

Definition IFNAMSIZ : Z := 16.

(** Modelled from the spec: [inet_prefix] and [is_addrtype_inet*] of
    include/utils.h, which is not under src/.  [data] stands for the
    address array, of which the first [bytelen] bytes are the address. *)
Record inet_prefix : Type :=
  mk_inet_prefix
    { flags : Z; bytelen : Z; bitlen : Z; family : Z; data : list byte }.

Definition PREFIXLEN_SPECIFIED : Z := Z.shiftl 1 0.
Definition ADDRTYPE_INET : Z := Z.shiftl 1 1.
Definition ADDRTYPE_UNSPEC : Z := Z.shiftl 1 2.
Definition ADDRTYPE_MULTI : Z := Z.shiftl 1 3.
Definition ADDRTYPE_INET_MULTI : Z := Z.lor ADDRTYPE_INET ADDRTYPE_MULTI.

Definition is_addrtype_inet (p : inet_prefix) : bool :=
  negb (Z.land (flags p) ADDRTYPE_INET =? 0).

Definition is_addrtype_inet_multi (p : inet_prefix) : bool :=
  Z.land (flags p) ADDRTYPE_INET_MULTI =? ADDRTYPE_INET_MULTI.

Definition is_addrtype_inet_not_multi (p : inet_prefix) : bool :=
  Z.land (flags p) ADDRTYPE_INET_MULTI =? ADDRTYPE_INET.

(** [struct tunnel_msg] of linux/if_link.h: the fixed header of a tunnel
    message. *)
Record tunnel_msg : Type :=
  mk_tunnel_msg { tm_family : Z; tm_ifindex : Z }.

(** The request of [vni_modify]: [req.n], [req.tmsg] and the attributes
    written to [req.buf].  [nlmsg_len] is not carried: it is the size of the
    headers plus that of the attributes. *)
Record request : Type :=
  mk_request
    { req_nlmsg_type : Z;
      req_nlmsg_flags : Z;
      req_tmsg : tunnel_msg;
      req_attrs : list rtattr }.

Definition with_attrs (n : request) (l : list rtattr) : request :=
  mk_request (req_nlmsg_type n) (req_nlmsg_flags n) (req_tmsg n) l.

Definition with_ifindex (n : request) (i : Z) : request :=
  mk_request (req_nlmsg_type n) (req_nlmsg_flags n)
             (mk_tunnel_msg (tm_family (req_tmsg n)) i) (req_attrs n).

(** An inbound message: [struct nlmsghdr], the [struct tunnel_msg] behind
    it, and the attributes that the walk from [TUNNEL_RTA(tmsg)] over the
    remaining [len] bytes visits. *)
Record nlmsghdr : Type :=
  mk_nlmsghdr
    { nlmsg_len : Z;
      nlmsg_type : Z;
      nlmsg_flags : Z;
      tmsg : tunnel_msg;
      tunnel_rta : list rtattr }.

Section Netlink.

(** The byte order of the host. *)
Variable host : byte_order.

(** The byte image of the children of a closed nest; it is fixed by the
    netlink wire format and read by none of the functions below. *)
Variable nest_bytes : list rtattr -> list byte.

(** Modelled from the spec: [addattr_l], [addattr32], [addattr_nest] and
    [addattr_nest_end] of lib/libnetlink.c, which is not under src/.  Each
    appends one attribute at the tail of the message; a nest is opened as
    an attribute without payload, and closing it makes everything that was
    appended after it its payload.  The [maxlen] argument bounds the
    buffer, whose capacity is outside the model. *)
Definition addattr_l (n : request) (maxlen : Z) (type : Z)
           (data : list byte) (alen : Z) : request :=
  with_attrs n
    (req_attrs n ++ [mk_rtattr (u16 type) (firstn (Z.to_nat alen) data) []]).

Definition addattr32 (n : request) (maxlen : Z) (type : Z) (v : Z)
  : request :=
  addattr_l n maxlen type (host_encode host 4 (u32 v)) 4.

(** The handle of an open nest is its position in the message. *)
Definition addattr_nest (n : request) (maxlen : Z) (type : Z)
  : request * nat :=
  (addattr_l n maxlen type [] 0, length (req_attrs n)).

Definition addattr_nest_end (n : request) (nest : nat) : request :=
  match nth_error (req_attrs n) nest with
  | Some a =>
      let children := skipn (S nest) (req_attrs n) in
      with_attrs n
        (firstn nest (req_attrs n)
           ++ [mk_rtattr (rta_type a) (nest_bytes children) children])
  | None => n
  end.

(** Modelled from the spec: [parse_rtattr_flags], [rta_getattr_u32] and
    [rta_getattr_u64] of lib/libnetlink.c and include/libnetlink.h, not
    under src/.  The table [tb] has, at each index up to [max], the first
    attribute of the sequence whose type, with [flags] cleared, is that
    index. *)
Definition parse_rtattr_flags (max : Z) (rta : list rtattr) (flags : Z)
  : Z -> option rtattr :=
  fun i =>
    if (0 <=? i) && (i <=? max)
    then find (fun a => Z.land (rta_type a) (Z.lnot flags) =? i) rta
    else None.

Definition rta_getattr_u32 (a : rtattr) : Z :=
  host_decode host (load 4 (rta_data a)).

Definition rta_getattr_u64 (a : rtattr) : Z :=
  host_decode host (load 8 (rta_data a)).

(* ================================================================ *)
(** ** parse_vni_filter *)
(* ================================================================ *)

(** Lines 59-69: one token of the list to [(vni_start, vni_end)], both
    [__u32]. *)
Definition parse_vni_token (vni : list ascii) : Z * Z :=
  match strchr vni "-" with
  | Some (vni, v) => (u32 (atoi vni), u32 (atoi v))
  | None => (u32 (atoi vni), 0)
  end.

(** Lines 70-77: one entry block at the tail of the message. *)
Definition add_vni_entry (n : request) (reqsize : Z)
           (vni_start vni_end : Z) (group : option inet_prefix)
           (group_type : Z) : request :=
  let '(n, nlvlist_e) :=
    addattr_nest n reqsize (Z.lor VXLAN_VNIFILTER_ENTRY NLA_F_NESTED) in
  let n := addattr32 n 1024 VXLAN_VNIFILTER_ENTRY_START vni_start in
  let n := if negb (vni_end =? 0)
           then addattr32 n 1024 VXLAN_VNIFILTER_ENTRY_END vni_end
           else n in
  let n := match group with
           | Some group =>
               addattr_l n 1024 group_type (data group) (bytelen group)
           | None => n
           end in
  addattr_nest_end n nlvlist_e.

Definition inspect {A} (a : A) : {b | a = b} := exist _ a eq_refl.

(** Lines 58-79: the loop over the tokens [strtok] cuts at the commas;
    [olds] is the position [strtok] has saved. *)
Equations vni_loop (reqsize : Z) (group : option inet_prefix)
          (group_type : Z) (olds : list ascii) (n : request)
  : request by wf (length olds) lt :=
  vni_loop reqsize group group_type olds n
    with inspect (strtok olds ",") := {
    | exist _ None _ => n
    | exist _ (Some (vni, olds')) _ =>
        let '(vni_start, vni_end) := parse_vni_token vni in
        vni_loop reqsize group group_type olds'
          (add_vni_entry n reqsize vni_start vni_end group group_type) }.
Next Obligation.
  eapply strtok_length; eauto.
Qed.

(** Lines 49 and 54-56: the attribute type of the address. *)
Definition vni_group_type (group : option inet_prefix) : Z :=
  match group with
  | Some g =>
      if is_addrtype_inet g
      then if family g =? AF_INET
           then VXLAN_VNIFILTER_ENTRY_GROUP
           else VXLAN_VNIFILTER_ENTRY_GROUP6
      else AF_UNSPEC
  | None => AF_UNSPEC
  end.

Definition parse_vni_filter (argv : string) (n : request) (reqsize : Z)
           (group : option inet_prefix) : Z * request :=
  let vnilist := list_ascii_of_string argv in
  let group_type := vni_group_type group in
  (0, vni_loop reqsize group group_type vnilist n).

End Netlink.

(* ================================================================== *)
(** ** vni_modify *)
(* ================================================================== *)

(** What [vni_modify] writes to stderr when it gives up, by the function or
    message that reports it. *)
Inductive diagnostic : Type :=
| incomplete_command                      (* NEXT_ARG() past the last word *)
| invarg (msg : string) (arg : string)
| usage
| address_expected (arg : string)         (* get_addr() *)
| both_group_and_remote                   (* "vxlan: both group and remote cannot be specified" *)
| device_and_vni_required                 (* "Device and VNI ID are required arguments." *)
| group_only_with_vni                     (* "Group can only be specified with a vni" *)
| cannot_find_device (d : option string). (* "Cannot find vxlan device" *)

(** How a call of [vni_modify] ends: the process exits, or the function
    returns [ret]; [sent] is the request handed to [rtnl_talk], if any. *)
Inductive outcome : Type :=
| Exit (status : Z) (why : diagnostic)
| Return (ret : Z) (why : option diagnostic) (sent : option request).

Definition sent_request (o : outcome) : option request :=
  match o with
  | Exit _ _ => None
  | Return _ _ sent => sent
  end.

Definition diagnostic_of (o : outcome) : option diagnostic :=
  match o with
  | Exit _ why => Some why
  | Return _ why _ => why
  end.

Definition succeeded (o : outcome) : bool :=
  match o with
  | Exit _ _ => false
  | Return ret _ _ => ret =? 0
  end.

(** The locals of [vni_modify] that the argument loop writes. *)
Record modify_locals : Type :=
  mk_locals
    { group_present : bool;
      daddr : inet_prefix;
      vni : option string;
      d : option string }.

Section Modify.

Variable host : byte_order.
Variable nest_bytes : list rtattr -> list byte.

(** [get_addr(&daddr, arg, AF_UNSPEC)] of lib/utils.c: the parsed address,
    or [None] where it reports the word and exits. *)
Variable get_addr : string -> option inet_prefix.

(** [ll_name_to_index] of lib/ll_map.c, on a name that may be NULL. *)
Variable ll_name_to_index : option string -> Z.

(** [rtnl_talk(&rth, &req.n, NULL)] of lib/libnetlink.c: its return
    value. *)
Variable rtnl_talk : request -> Z.

(** Lines 101-134: the loop over the words.  [NEXT_ARG()] steps to the
    next word and exits when there is none. *)
Fixpoint modify_args (argv : list string) (l : modify_locals)
  : outcome + modify_locals :=
  match argv with
  | [] => inr l
  | arg :: rest =>
      if String.eqb arg "dev" then
        match rest with
        | [] => inl (Exit (-1) incomplete_command)
        | arg :: rest =>
            modify_args rest
              (mk_locals (group_present l) (daddr l) (vni l) (Some arg))
        end
      else if String.eqb arg "vni" then
        match rest with
        | [] => inl (Exit (-1) incomplete_command)
        | arg :: rest =>
            match vni l with
            | Some _ => inl (Exit (-1) (invarg "duplicate vni" arg))
            | None =>
                modify_args rest
                  (mk_locals (group_present l) (daddr l) (Some arg) (d l))
            end
        end
      else if String.eqb arg "group" then
        if group_present l then
          inl (Exit (-1) (invarg "duplicate group" arg))
        else if is_addrtype_inet_not_multi (daddr l) then
          inl (Return (-1) (Some both_group_and_remote) None)
        else
          match rest with
          | [] => inl (Exit (-1) incomplete_command)
          | arg :: rest =>
              match get_addr arg with
              | None => inl (Exit 1 (address_expected arg))
              | Some daddr =>
                  if negb (is_addrtype_inet_multi daddr) then
                    inl (Exit (-1) (invarg "invalid group address" arg))
                  else
                    modify_args rest (mk_locals true daddr (vni l) (d l))
              end
          end
      else if String.eqb arg "remote" then
        if group_present l then
          inl (Exit (-1) (invarg "duplicate group" arg))
        else
          match rest with
          | [] => inl (Exit (-1) incomplete_command)
          | arg :: rest =>
              match get_addr arg with
              | None => inl (Exit 1 (address_expected arg))
              | Some daddr =>
                  modify_args rest (mk_locals true daddr (vni l) (d l))
              end
          end
      else if String.eqb arg "help" then
        inl (Exit (-1) usage)
      else
        modify_args rest l
  end.

Definition is_null {A} (p : option A) : bool :=
  match p with Some _ => false | None => true end.

(** [sizeof(req)]: the two headers and the 1024 bytes of [buf]. *)
Definition sizeof_req : Z := NLMSG_HDRLEN + sizeof_tunnel_msg + 1024.

(** [vni_modify(cmd, argc, argv)]; [daddr0] is what the uninitialised
    [daddr] holds on entry. *)
Definition vni_modify (cmd : Z) (argv : list string) (daddr0 : inet_prefix)
  : outcome :=
  let req := mk_request cmd NLM_F_REQUEST (mk_tunnel_msg PF_BRIDGE 0) [] in
  match modify_args argv (mk_locals false daddr0 None None) with
  | inl stop => stop
  | inr l =>
      if is_null (d l) || is_null (vni l) then
        Return (-1) (Some device_and_vni_required) None
      else if is_null (vni l) && group_present l then
        Return (-1) (Some group_only_with_vni) None
      else
        let req :=
          match vni l with
          | Some vni =>
              snd (parse_vni_filter host nest_bytes vni req sizeof_req
                     (if group_present l then Some (daddr l) else None))
          | None => req
          end in
        let req := with_ifindex req (ll_name_to_index (d l)) in
        if tm_ifindex (req_tmsg req) =? 0 then
          Return (-1) (Some (cannot_find_device (d l))) None
        else if rtnl_talk req <? 0 then
          Return (-1) None (Some req)
        else
          Return 0 None (Some req)
  end.

End Modify.

(* ================================================================== *)
(** ** Output *)
(* ================================================================== *)

Inductive output_type : Type := PRINT_FP | PRINT_JSON | PRINT_ANY.

Inductive color_attr : Type := COLOR_IFNAME.

(** The string arguments handed to the printing calls. *)
Inductive text : Type :=
| str (s : string)
| format_host (af : Z) (len : Z) (addr : list byte)
| ll_index_to_name (idx : Z)
| _SL_.

(** One call of the printing library (json_print.h, and [print_headers] of
    the bridge tool), with its arguments. *)
Inductive call : Type :=
| open_json_object (name : option string)
| close_json_object
| open_json_array (t : output_type) (name : option string)
| close_json_array (t : output_type) (name : option string)
| print_uint (t : output_type) (key : option string) (fmt : string) (v : Z)
| print_lluint (t : output_type) (key : option string) (fmt : string) (v : Z)
| print_string (t : output_type) (key : option string) (fmt : string)
               (v : text)
| print_color_string (t : output_type) (c : color_attr)
                     (key : option string) (fmt : string) (v : text)
| print_bool (t : output_type) (key : option string) (fmt : string)
             (v : bool)
| print_nl
| print_headers (label : string)
| fflush_stdout.

(** The lines [print_vnifilter_rtm] writes to stderr. *)
Inductive stderr_line : Type :=
| unknown_vni_tunnel_rtm_msg (len type flags : Z)
| bug_wrong_nlmsg_len (len : Z).

(** What one call of [print_vnifilter_rtm] does: its return value, the
    printing calls it makes and what it writes to stderr. *)
Record rtm_result : Type :=
  mk_rtm_result { ret : Z; out : list call; err : list stderr_line }.

(* ================================================================== *)
(** ** The reply decoder *)
(* ================================================================== *)

Section Decoder.

Variable host : byte_order.

Definition open_vni_port (ifi_index : Z) (fmt : string) : list call :=
  [ open_json_object None;
    print_color_string PRINT_ANY COLOR_IFNAME (Some "ifname") "%-16s  "
                       (ll_index_to_name ifi_index);
    open_json_array PRINT_JSON (Some "vnis") ].

Definition close_vni_port : list call :=
  [ close_json_array PRINT_JSON None; close_json_object ].

Definition print_range (name : string) (start id : Z) : list call :=
  let end_ := String.append name "End" in
  print_uint PRINT_ANY (Some name) " %u" start
    :: (if negb (start =? id)
        then [print_uint PRINT_ANY (Some end_) "-%-14u " id]
        else []).

(** One of the eight [if (stb[...])] blocks. *)
Definition print_stat (stb : Z -> option rtattr) (idx : Z)
           (key fmt : string) : list call :=
  match stb idx with
  | Some a =>
      let stat := rta_getattr_u64 host a in
      [print_lluint PRINT_ANY (Some key) fmt stat]
  | None => []
  end.

Definition print_vnifilter_entry_stats (stats_attr : rtattr) : list call :=
  let stb :=
    parse_rtattr_flags VNIFILTER_ENTRY_STATS_MAX (rta_nested stats_attr)
                       NLA_F_NESTED in
  [ open_json_object (Some "stats");
    print_nl;
    print_string PRINT_FP None "%-16s   " (str "");
    print_string PRINT_FP None "RX: " (str "") ]
    ++ print_stat stb VNIFILTER_ENTRY_STATS_RX_BYTES "rx_bytes" "bytes %llu "
    ++ print_stat stb VNIFILTER_ENTRY_STATS_RX_PKTS "rx_pkts" "pkts %llu "
    ++ print_stat stb VNIFILTER_ENTRY_STATS_RX_DROPS "rx_drops" "drops %llu "
    ++ print_stat stb VNIFILTER_ENTRY_STATS_RX_ERRORS "rx_errors"
                  "errors %llu "
    ++ [ print_nl;
         print_string PRINT_FP None "%-16s   " (str "");
         print_string PRINT_FP None "TX: " (str "") ]
    ++ print_stat stb VNIFILTER_ENTRY_STATS_TX_BYTES "tx_bytes" "bytes %llu "
    ++ print_stat stb VNIFILTER_ENTRY_STATS_TX_PKTS "tx_pkts" "pkts %llu "
    ++ print_stat stb VNIFILTER_ENTRY_STATS_TX_DROPS "tx_drops" "drops %llu "
    ++ print_stat stb VNIFILTER_ENTRY_STATS_TX_ERRORS "tx_errors"
                  "errors %llu "
    ++ [ close_json_object ].

(** Lines 262-297 of [print_vni]: the group or remote address. *)
Definition print_vni_endpoint (ttb : Z -> option rtattr) : list call :=
  match ttb VXLAN_VNIFILTER_ENTRY_GROUP with
  | Some a =>
      let addr := rta_getattr_u32 host a in
      if negb (addr =? 0) then
        if IN_MULTICAST (ntohl host addr) then
          [print_string PRINT_ANY (Some "group") " %s"
                        (format_host AF_INET 4 (host_encode host 4 addr))]
        else
          [print_string PRINT_ANY (Some "remote") " %s"
                        (format_host AF_INET 4 (host_encode host 4 addr))]
      else []
  | None =>
      match ttb VXLAN_VNIFILTER_ENTRY_GROUP6 with
      | Some a =>
          let addr := load 16 (rta_data a) in
          if negb (IN6_IS_ADDR_UNSPECIFIED addr) then
            if IN6_IS_ADDR_MULTICAST addr then
              [print_string PRINT_ANY (Some "group") " %s"
                            (format_host AF_INET6 16 addr)]
            else
              [print_string PRINT_ANY (Some "remote") " %s"
                            (format_host AF_INET6 16 addr)]
          else []
      | None => []
      end
  end.

Definition print_vni (t : rtattr) (ifindex : Z) : list call :=
  let ttb :=
    parse_rtattr_flags VXLAN_VNIFILTER_ENTRY_MAX (rta_nested t)
                       NLA_F_NESTED in
  let vni_start :=
    match ttb VXLAN_VNIFILTER_ENTRY_START with
    | Some a => rta_getattr_u32 host a
    | None => 0
    end in
  let vni_end :=
    match ttb VXLAN_VNIFILTER_ENTRY_END with
    | Some a => rta_getattr_u32 host a
    | None => 0
    end in
  (if negb (vni_end =? 0)
   then print_range "vni" vni_start vni_end
   else [print_uint PRINT_ANY (Some "vni") " %-14u" vni_start])
    ++ print_vni_endpoint ttb
    ++ match ttb VXLAN_VNIFILTER_ENTRY_STATS with
       | Some a => print_vnifilter_entry_stats a
       | None => []
       end
    ++ [ close_json_object; print_string PRINT_FP None "%s" _SL_ ].

(** Lines 341-356: the walk over the attributes of the message. *)
Fixpoint rtm_entries (rta : list rtattr) (first : bool) (ifindex : Z)
  : list call :=
  match rta with
  | [] => []
  | t :: rta =>
      let rta_type := u16 (Z.land (rta_type t) NLA_TYPE_MASK) in
      if negb (rta_type =? VXLAN_VNIFILTER_ENTRY) then
        rtm_entries rta first ifindex
      else
        (if first
         then open_vni_port ifindex "%s" ++ [open_json_object None]
         else [ open_json_object None;
                print_string PRINT_FP None "%-16s  " (str "") ])
          ++ print_vni t ifindex
          ++ rtm_entries rta false ifindex
  end.

(** [print_vnifilter_rtm(n, arg)], reading the global [filter_index]. *)
Definition print_vnifilter_rtm (filter_index : Z) (n : nlmsghdr)
  : rtm_result :=
  let len := int32 (nlmsg_len n) in
  if negb (nlmsg_type n =? RTM_NEWTUNNEL)
     && negb (nlmsg_type n =? RTM_DELTUNNEL)
     && negb (nlmsg_type n =? RTM_GETTUNNEL)
  then
    mk_rtm_result 0 []
      [unknown_vni_tunnel_rtm_msg (nlmsg_len n) (nlmsg_type n)
                                  (nlmsg_flags n)]
  else
    let len := int32 (len - NLMSG_LENGTH sizeof_tunnel_msg) in
    if len <? 0 then
      mk_rtm_result (-1) [] [bug_wrong_nlmsg_len len]
    else if negb (tm_family (tmsg n) =? AF_BRIDGE) then
      mk_rtm_result 0 [] []
    else if negb (filter_index =? 0)
            && negb (filter_index =? tm_ifindex (tmsg n)) then
      mk_rtm_result 0 [] []
    else
      mk_rtm_result 0
        (print_headers "[TUNNEL]"
           :: (if nlmsg_type n =? RTM_DELTUNNEL
               then [print_bool PRINT_ANY (Some "deleted") "Deleted " true]
               else [])
           ++ rtm_entries (tunnel_rta n) true (tm_ifindex (tmsg n))
           ++ close_vni_port
           ++ [ print_string PRINT_FP None "%s" _SL_; fflush_stdout ])
        [].

Definition print_vnifilter_rtm_filter (filter_index : Z) (n : nlmsghdr)
  : rtm_result :=
  print_vnifilter_rtm filter_index n.

(** Modelled from the spec: [rtnl_dump_filter] of lib/libnetlink.c, which is
    not under src/.  The messages of the dump are handed to the filter one
    at a time, in arrival order; a negative return ends the dump with that
    value. *)
Fixpoint rtnl_dump_filter (filter : nlmsghdr -> rtm_result)
         (msgs : list nlmsghdr) : rtm_result :=
  match msgs with
  | [] => mk_rtm_result 0 [] []
  | n :: msgs =>
      let r := filter n in
      if ret r <? 0 then r
      else
        let r' := rtnl_dump_filter filter msgs in
        mk_rtm_result (ret r') (out r ++ out r') (err r ++ err r')
  end.

End Decoder.


(* ================================================================== *)
(** ** vni_show *)
(* ================================================================== *)

(** Modelled from the spec: [TUNNEL_MSG_FLAG_STATS] of linux/if_link.h,
    which is not under src/. *)
Definition TUNNEL_MSG_FLAG_STATS : Z := 1.

Definition VXLAN_ID_LEN : Z := 15.

(** The line feed of ["\n"]. *)
Definition LF : string := String (ascii_of_nat 10) EmptyString.

(** What [vni_show] itself does around the calls of the decoder. *)
Inductive show_event : Type :=
| new_json_obj (json : Z)
| rtnl_tunneldump_req (family ifindex flags : Z)
| printf (fmt : string) (args : list string)
| printed (c : call)                      (* a call made by the decoder *)
| delete_json_obj
| fflush_stdout_after.

(** What [vni_show] reports when it gives up. *)
Inductive show_diagnostic : Type :=
| show_incomplete_command                 (* NEXT_ARG() past the last word *)
| duparg (key : string) (arg : string)
| cannot_send_dump_request                (* perror() *)
| dump_terminated.                        (* "Dump ternminated" *)

Inductive show_ending : Type :=
| show_exit (status : Z) (why : show_diagnostic)
| show_return (ret : Z).

(** A call of [vni_show]: how it ends, what it does in order, what the
    decoder writes to stderr, and the value it leaves in the global
    [filter_index]. *)
Record show_result : Type :=
  mk_show_result
    { show_end : show_ending;
      show_events : list show_event;
      show_stderr : list stderr_line;
      show_filter_index : Z }.

Section Show.

Variable host : byte_order.

(** [ll_name_to_index] of lib/ll_map.c, as for [vni_modify]. *)
Variable ll_name_to_index : option string -> Z.

(** [nodev(dev)] of lib/utils.c: it reports the device and gives the value
    [vni_show] returns. *)
Variable nodev : string -> Z.

(** The globals [json] and [show_stats] of the bridge tool, and what
    [is_json_context()] answers after [new_json_obj(json)]. *)
Variable json : Z.
Variable show_stats : Z.
Variable is_json_context : bool.

(** The return value of [rtnl_tunneldump_req(&rth, family, ifindex, flags)]
    of lib/libnetlink.c. *)
Variable tunneldump_req_ret : Z -> Z -> Z -> Z.

(** Lines 376-384: the loop over the words; only [dev] is looked at. *)
Fixpoint show_args (argv : list string) (filter_dev : option string)
  : show_diagnostic + option string :=
  match argv with
  | [] => inr filter_dev
  | arg :: rest =>
      if String.eqb arg "dev" then
        match rest with
        | [] => inl show_incomplete_command
        | arg :: rest =>
            match filter_dev with
            | Some _ => inl (duparg "dev" arg)
            | None => show_args rest (Some arg)
            end
        end
      else show_args rest filter_dev
  end.

(** Lines 392-418: the dump, under the filter index that has been set. *)
Definition vni_show_dump (filter_index : Z) (msgs : list nlmsghdr)
  : show_result :=
  let flags :=
    if negb (show_stats =? 0) then TUNNEL_MSG_FLAG_STATS else 0 in
  let ev :=
    [ new_json_obj json;
      rtnl_tunneldump_req PF_BRIDGE filter_index flags ] in
  if tunneldump_req_ret PF_BRIDGE filter_index flags <? 0 then
    mk_show_result (show_exit 1 cannot_send_dump_request) ev [] filter_index
  else
    let ev :=
      ev ++ (if negb is_json_context
             then [ printf "%-16s  %-15s  %-15s"
                           ["dev"; "vni"; "group/remote"];
                    printf LF [] ]
             else []) in
    let r :=
      rtnl_dump_filter (print_vnifilter_rtm_filter host filter_index) msgs in
    let ev := ev ++ map printed (out r) in
    if ret r <? 0 then
      mk_show_result (show_exit 1 dump_terminated) ev (err r) filter_index
    else
      mk_show_result (show_return 0)
                     (ev ++ [delete_json_obj; fflush_stdout_after])
                     (err r) filter_index.

(** [vni_show(argc, argv)], with the value of the global [filter_index] on
    entry and the messages that the dump delivers. *)
Definition vni_show (filter_index : Z) (argv : list string)
           (msgs : list nlmsghdr) : show_result :=
  match show_args argv None with
  | inl why => mk_show_result (show_exit (-1) why) [] [] filter_index
  | inr filter_dev =>
      match filter_dev with
      | Some dev =>
          let filter_index := ll_name_to_index filter_dev in
          if filter_index =? 0 then
            mk_show_result (show_return (nodev dev)) [] [] filter_index
          else vni_show_dump filter_index msgs
      | None => vni_show_dump filter_index msgs
      end
  end.

End Show.

(* ================================================================== *)
(** ** do_vni *)
(* ================================================================== *)

(** How [do_vni] ends: in [vni_modify], in [vni_show], or by itself, with
    the usage text or on a command it does not know. *)
Inductive vni_result : Type :=
| modified (o : outcome)
| shown (r : show_result)
| usage_shown                              (* usage(): exit(-1) *)
| unknown_command (cmd : string).          (* exit(-1) *)

Section DoVni.

Variable host : byte_order.
Variable nest_bytes : list rtattr -> list byte.
Variable get_addr : string -> option inet_prefix.
Variable ll_name_to_index : option string -> Z.
Variable rtnl_talk : request -> Z.
Variable nodev : string -> Z.
Variable json : Z.
Variable show_stats : Z.
Variable is_json_context : bool.
Variable tunneldump_req_ret : Z -> Z -> Z -> Z.

(** [do_vni(argc, argv)]; [daddr0] is what the stack holds where
    [vni_modify] has its [daddr], [filter_index] the value of the global on
    entry and [msgs] the messages a dump delivers.  [ll_init_map] and the
    reset of [timestamp] leave no trace in the model. *)
Definition do_vni (argv : list string) (daddr0 : inet_prefix)
           (filter_index : Z) (msgs : list nlmsghdr) : vni_result :=
  let show :=
    vni_show host ll_name_to_index nodev json show_stats is_json_context
             tunneldump_req_ret filter_index in
  let modify cmd rest :=
    vni_modify host nest_bytes get_addr ll_name_to_index rtnl_talk cmd rest
               daddr0 in
  match argv with
  | arg :: rest =>
      if String.eqb arg "add" then modified (modify RTM_NEWTUNNEL rest)
      else if String.eqb arg "delete" then modified (modify RTM_DELTUNNEL rest)
      else if String.eqb arg "show" || String.eqb arg "lst"
              || String.eqb arg "list" then shown (show rest msgs)
      else if String.eqb arg "help" then usage_shown
      else unknown_command arg
  | [] => shown (show [] msgs)
  end.

End DoVni.
(* ================================================================== *)
(** ** The vocabulary of the specification *)
(* ================================================================== *)

(** [VniRange] of the specification: a single id has no end. *)
Record VniRange : Type := mk_range { start : Z; end_ : option Z }.




(** A 32-bit attribute as [addattr32] writes it. *)
Definition attr32 (host : byte_order) (type v : Z) : rtattr :=
  mk_rtattr type (host_encode host 4 (u32 v)) [].

(** The range an entry block carries, read from its START and END
    children the way [print_vni] reads them. *)
Definition entry_range (host : byte_order) (block : rtattr) : VniRange :=
  let ttb :=
    parse_rtattr_flags VXLAN_VNIFILTER_ENTRY_MAX (rta_nested block)
                       NLA_F_NESTED in
  mk_range
    (match ttb VXLAN_VNIFILTER_ENTRY_START with
     | Some a => rta_getattr_u32 host a
     | None => 0
     end)
    (option_map (rta_getattr_u32 host) (ttb VXLAN_VNIFILTER_ENTRY_END)).

(** The request [vni_modify] starts from. *)
Definition empty_request (cmd : Z) : request :=
  mk_request cmd NLM_F_REQUEST (mk_tunnel_msg PF_BRIDGE 0) [].

(** The Range Parser of the specification: the ranges of the entry blocks
    that [parse_vni_filter] writes for a VNI specification. *)
Definition parse (host : byte_order) (nest_bytes : list rtattr -> list byte)
           (s : string) : list VniRange :=
  map (entry_range host)
      (req_attrs
         (snd (parse_vni_filter host nest_bytes s
                 (empty_request RTM_NEWTUNNEL) sizeof_req None))).




(** The byte image of a nest used where an example needs one: no function
    of the model reads it. *)
Definition no_image : list rtattr -> list byte := fun _ => [].

(** How the specification classifies the endpoint of a decoded entry. *)
Inductive endpoint_class : Type :=
| endpoint_absent
| endpoint_group
| endpoint_remote.

(** A multicast IPv4 address, by its bytes in network order: 224.0.0.0/4. *)
Definition ipv4_multicast (addr : list byte) : bool :=
  match addr with
  | b :: _ => (224 <=? byte_val b) && (byte_val b <=? 239)
  | [] => false
  end.

(** A multicast IPv6 address: ff00::/8. *)
Definition ipv6_multicast (addr : list byte) : bool :=
  match addr with
  | b :: _ => byte_val b =? 255
  | [] => false
  end.

Definition classify (multicast : list byte -> bool) (addr : list byte)
  : endpoint_class :=
  if all_zero addr then endpoint_absent
  else if multicast addr then endpoint_group
  else endpoint_remote.

(** What is printed for an endpoint of a given class. *)
Definition endpoint_calls (af len : Z) (addr : list byte)
           (c : endpoint_class) : list call :=
  match c with
  | endpoint_absent => []
  | endpoint_group =>
      [print_string PRINT_ANY (Some "group") " %s" (format_host af len addr)]
  | endpoint_remote =>
      [print_string PRINT_ANY (Some "remote") " %s" (format_host af len addr)]
  end.

(** The IPv4 multicast group 239.1.1.1 as [get_addr] leaves it. *)
Definition group_239_1_1_1 : inet_prefix :=
  mk_inet_prefix ADDRTYPE_INET_MULTI 4 32 AF_INET [xef; x01; x01; x01].

(** The three kinds of message the decoder expects. *)
Definition is_tunnel_kind (type : Z) : bool :=
  (type =? RTM_NEWTUNNEL) || (type =? RTM_DELTUNNEL) || (type =? RTM_GETTUNNEL).

(** The message is long enough to hold the fixed tunnel header (and its
    length fits an [int]). *)
Definition holds_tunnel_header (n : nlmsghdr) : bool :=
  (NLMSG_LENGTH sizeof_tunnel_msg <=? nlmsg_len n) && (nlmsg_len n <? 2 ^ 31).

(** The length the decoder computes for what follows the tunnel header, as
    an [int]. *)
Definition payload_len (n : nlmsghdr) : Z :=
  int32 (int32 (nlmsg_len n) - NLMSG_LENGTH sizeof_tunnel_msg).

(** The messages the decoder accepts under a filter index: those that pass
    its four tests. *)
Definition accepted (filter_index : Z) (n : nlmsghdr) : bool :=
  is_tunnel_kind (nlmsg_type n)
  && (0 <=? payload_len n)
  && (tm_family (tmsg n) =? AF_BRIDGE)
  && ((filter_index =? 0) || (filter_index =? tm_ifindex (tmsg n))).

(** The messages of a dump that reach the filter: all of them up to the
    first one on which the filter fails. *)
Fixpoint delivered (filter : nlmsghdr -> rtm_result) (msgs : list nlmsghdr)
  : list nlmsghdr :=
  match msgs with
  | [] => []
  | n :: msgs =>
      if ret (filter n) <? 0 then [n] else n :: delivered filter msgs
  end.


Definition is_print_lluint (c : call) : bool :=
  match c with
  | print_lluint _ _ _ _ => true
  | _ => false
  end.

(** The eight counters of a statistics block: attribute, key, format. *)
Definition stat_counters : list (Z * string * string) :=
  [ (VNIFILTER_ENTRY_STATS_RX_BYTES, "rx_bytes", "bytes %llu ");
    (VNIFILTER_ENTRY_STATS_RX_PKTS, "rx_pkts", "pkts %llu ");
    (VNIFILTER_ENTRY_STATS_RX_DROPS, "rx_drops", "drops %llu ");
    (VNIFILTER_ENTRY_STATS_RX_ERRORS, "rx_errors", "errors %llu ");
    (VNIFILTER_ENTRY_STATS_TX_BYTES, "tx_bytes", "bytes %llu ");
    (VNIFILTER_ENTRY_STATS_TX_PKTS, "tx_pkts", "pkts %llu ");
    (VNIFILTER_ENTRY_STATS_TX_DROPS, "tx_drops", "drops %llu ");
    (VNIFILTER_ENTRY_STATS_TX_ERRORS, "tx_errors", "errors %llu ") ].

(** An entry block without its IPv6 endpoint children. *)
Definition without_group6 (t : rtattr) : rtattr :=
  mk_rtattr (rta_type t) (rta_data t)
    (filter (fun a =>
               negb (Z.land (rta_type a) (Z.lnot NLA_F_NESTED)
                     =? VXLAN_VNIFILTER_ENTRY_GROUP6))
            (rta_nested t)).

(** The command line of the specification,
    [vni VNI [group|remote ADDR] dev DEV]: the words that take a value, and
    the options of an argument list with their values. *)
Definition is_option_word (w : string) : bool :=
  String.eqb w "dev" || String.eqb w "vni"
  || String.eqb w "group" || String.eqb w "remote".

Fixpoint options (argv : list string) : list (string * string) :=
  match argv with
  | [] => []
  | w :: rest =>
      if is_option_word w then
        match rest with
        | [] => []
        | v :: rest => (w, v) :: options rest
        end
      else options rest
  end.

Definition supplied (key : string) (argv : list string) : bool :=
  existsb (fun o => String.eqb (fst o) key) (options argv).

(** The children [add_vni_entry] puts in a block. *)
Definition entry_children (host : byte_order) (vni_start vni_end : Z)
           (group : option inet_prefix) (group_type : Z) : list rtattr :=
  attr32 host VXLAN_VNIFILTER_ENTRY_START vni_start
    :: (if vni_end =? 0 then []
        else [attr32 host VXLAN_VNIFILTER_ENTRY_END vni_end])
    ++ match group with
       | Some g =>
           [mk_rtattr (u16 group_type)
                      (firstn (Z.to_nat (bytelen g)) (data g)) []]
       | None => []
       end.


(** How the argument loop can stop early: the process exits, or the
    function returns -1 without a request. *)
Definition early_stop (o : outcome) : Prop :=
  match o with
  | Exit _ why => why <> group_only_with_vni
  | Return r why sent =>
      r = -1 /\ why = Some both_group_and_remote /\ sent = None
  end.

(* ================================================================== *)
(** ** Proof automation *)
(* ================================================================== *)

(** Decide the closed comparisons of attribute types in the goal. *)
Ltac decide_types :=
  repeat match goal with
         | |- context [Z.land ?a (Z.lnot ?f) =? ?c] =>
             let b := eval vm_compute in (Z.land a (Z.lnot f) =? c) in
             change (Z.land a (Z.lnot f) =? c) with b; cbv iota
         end.

(** Split the goal on the options and conditions it tests. *)
Ltac split_cases :=
  repeat match goal with
         | |- context [match ?o with Some _ => _ | None => _ end] =>
             destruct o
         | |- context [if ?b then _ else _] => destruct b
         end.

(* ================================================================== *)
(** ** Further vocabulary *)
(* ================================================================== *)

(** The fields of a string cut at every [c], empty ones included. *)
Fixpoint fields (c : ascii) (s : list ascii) : list (list ascii) :=
  match s with
  | [] => [[]]
  | a :: r =>
      if Ascii.eqb a c then [] :: fields c r
      else match fields c r with
           | f :: fs => (a :: f) :: fs
           | [] => [[a]]
           end
  end.

(** The fields that are not empty. *)
Definition tokens (c : ascii) (s : list ascii) : list (list ascii) :=
  filter (fun f => negb (Nat.eqb (length f) 0)) (fields c s).

(** The entry block of a pair [(vni_start, vni_end)]. *)
Definition entry_block (host : byte_order)
           (nest_bytes : list rtattr -> list byte)
           (group : option inet_prefix) (p : Z * Z) : rtattr :=
  let children :=
    entry_children host (fst p) (snd p) group (vni_group_type group) in
  mk_rtattr (u16 (Z.lor VXLAN_VNIFILTER_ENTRY NLA_F_NESTED))
            (nest_bytes children) children.

(** What [print_vni] prints for the ids of an entry. *)
Definition vni_calls (vni_start vni_end : Z) : list call :=
  if vni_end =? 0 then [print_uint PRINT_ANY (Some "vni") " %-14u" vni_start]
  else if vni_start =? vni_end
       then [print_uint PRINT_ANY (Some "vni") " %u" vni_start]
       else [ print_uint PRINT_ANY (Some "vni") " %u" vni_start;
              print_uint PRINT_ANY (Some "vniEnd") "-%-14u " vni_end ].

(** The address bytes [parse_vni_filter] writes for an endpoint. *)
Definition endpoint_bytes (g : inet_prefix) : list byte :=
  firstn (Z.to_nat (bytelen g)) (data g).

(** What [print_vni] prints for the endpoint an entry was encoded with. *)
Definition endpoint_shown (group : option inet_prefix) : list call :=
  match group with
  | None => []
  | Some g =>
      if is_addrtype_inet g then
        if family g =? AF_INET then
          endpoint_calls AF_INET 4 (load 4 (endpoint_bytes g))
                         (classify ipv4_multicast (load 4 (endpoint_bytes g)))
        else
          endpoint_calls AF_INET6 16 (load 16 (endpoint_bytes g))
                         (classify ipv6_multicast (load 16 (endpoint_bytes g)))
      else []
  end.




(** The attributes of a message that are entries for the decoder. *)
Definition is_entry_attr (a : rtattr) : bool :=
  u16 (Z.land (rta_type a) NLA_TYPE_MASK) =? VXLAN_VNIFILTER_ENTRY.

(** The nesting of the JSON output after a sequence of calls: one more
    for each object or array opened, one less for each one closed. *)
Definition json_step (c : call) : Z :=
  match c with
  | open_json_object _ | open_json_array _ _ => 1
  | close_json_object | close_json_array _ _ => -1
  | _ => 0
  end.

Definition json_depth (l : list call) : Z :=
  fold_right (fun c d => json_step c + d) 0 l.

Definition is_ifname (c : call) : bool :=
  match c with
  | print_color_string _ _ _ _ _ => true
  | _ => false
  end.

(** The calls for the entries that follow the first one. *)
Definition later_entry (host : byte_order) (ifindex : Z) (t : rtattr)
  : list call :=
  [ open_json_object None; print_string PRINT_FP None "%-16s  " (str "") ]
    ++ print_vni host t ifindex.

(** The values an argument list gives to an option, in order. *)
Definition values (key : string) (argv : list string) : list string :=
  map snd (filter (fun o => String.eqb (fst o) key) (options argv)).

(** The endpoint options of an argument list, in order. *)
Definition endpoints (argv : list string) : list (string * string) :=
  filter (fun o => String.eqb (fst o) "group" || String.eqb (fst o) "remote")
         (options argv).

(** The endpoint an argument list gives, as the specification of a request
    sees it: none, or the address of its one endpoint option. *)
Definition endpoint_of (get_addr : string -> option inet_prefix)
           (argv : list string) (ep : option inet_prefix) : Prop :=
  match endpoints argv with
  | [] => ep = None
  | [(k, a)] =>
      exists addr,
        get_addr a = Some addr /\ ep = Some addr
        /\ (k = "group" -> is_addrtype_inet_multi addr = true)
  | _ => False
  end.

(** The words of an argument list of [vni_show] among which there is no
    [dev]. *)
Definition no_dev_word (argv : list string) : bool :=
  forallb (fun w => negb (String.eqb w "dev")) argv.

(** The decoder calls among the events of a show. *)
Definition printed_calls (ev : list show_event) : list call :=
  flat_map (fun e => match e with printed c => [c] | _ => [] end) ev.

(** Reduce the tests on a word that is known. *)
Ltac known_word E w :=
  apply String.eqb_eq in E; subst w;
  cbn [options is_option_word values endpoints filter map fst snd
       String.eqb Ascii.eqb Bool.eqb orb andb].

Ltac other_word Edev Evni Egroup Eremote :=
  unfold values, endpoints; cbn [options]; unfold is_option_word;
  rewrite Edev, Evni, Egroup, Eremote; cbn [orb].
(* ================================================================== *)
(** ** Bytes and integers *)
(* ================================================================== *)

Lemma byte_val_range b : 0 <= byte_val b <= 255.
Proof.
  unfold byte_val. pose proof (Byte.to_N_bounded b). lia.
Qed.

Lemma byte_of_val b : byte_of (byte_val b) = b.
Proof.
  unfold byte_of. pose proof (byte_val_range b) as H.
  rewrite Z.mod_small by lia. unfold byte_val.
  rewrite N2Z.id, Byte.of_to_N. reflexivity.
Qed.

Lemma byte_of_step b x : byte_of (byte_val b + 256 * x) = b.
Proof.
  unfold byte_of. pose proof (byte_val_range b) as H.
  replace ((byte_val b + 256 * x) mod 256) with (byte_val b).
  - unfold byte_val. rewrite N2Z.id, Byte.of_to_N. reflexivity.
  - replace (256 * x) with (x * 256) by lia.
    rewrite Z_mod_plus_full. symmetry; apply Z.mod_small; lia.
Qed.

Lemma le_decode_nonneg l : 0 <= le_decode l.
Proof.
  induction l as [|b r IH]; cbn [le_decode]; [lia|].
  pose proof (byte_val_range b). lia.
Qed.

Lemma le_encode_decode l : le_encode (length l) (le_decode l) = l.
Proof.
  induction l as [|b r IH]; cbn [le_decode le_encode length]; [reflexivity|].
  rewrite byte_of_step. f_equal.
  pose proof (byte_val_range b) as H.
  replace ((byte_val b + 256 * le_decode r) / 256) with (le_decode r);
    [exact IH|].
  replace (256 * le_decode r) with (le_decode r * 256) by lia.
  rewrite Z_div_plus_full by lia. rewrite Z.div_small by lia. lia.
Qed.

Lemma byte_val_of z : byte_val (byte_of z) = z mod 256.
Proof.
  unfold byte_of, byte_val.
  pose proof (Z.mod_pos_bound z 256 ltac:(lia)) as H.
  destruct (Byte.of_N (Z.to_N (z mod 256))) as [b|] eqn:E.
  - apply Byte.to_of_N in E. rewrite E. lia.
  - apply Byte.of_N_None_iff in E. lia.
Qed.

Lemma le_decode_encode n z :
  le_decode (le_encode n z) = z mod 256 ^ Z.of_nat n.
Proof.
  revert z; induction n as [|n IH]; intros z.
  - simpl. rewrite Z.mod_1_r. reflexivity.
  - cbn [le_encode le_decode]. rewrite byte_val_of, IH.
    rewrite Nat2Z.inj_succ, Z.pow_succ_r by lia.
    assert (Hp : 0 < 256 ^ Z.of_nat n) by (apply Z.pow_pos_nonneg; lia).
    rewrite (Z.rem_mul_r z 256 (256 ^ Z.of_nat n)) by lia. reflexivity.
Qed.

Lemma host_encode_decode host l :
  host_encode host (length l) (host_decode host l) = l.
Proof.
  destruct host; simpl.
  - apply le_encode_decode.
  - unfold be_encode, be_decode.
    rewrite <- (length_rev l), le_encode_decode. apply rev_involutive.
Qed.

Lemma length_le_encode n z : length (le_encode n z) = n.
Proof.
  revert z; induction n; simpl; intros; [reflexivity|]. f_equal; auto.
Qed.

Lemma host_decode_encode host n z :
  host_decode host (host_encode host n z) = z mod 256 ^ Z.of_nat n.
Proof.
  destruct host; simpl.
  - apply le_decode_encode.
  - unfold be_encode, be_decode. rewrite rev_involutive.
    apply le_decode_encode.
Qed.

Lemma u32_getattr_of_encode host v :
  host_decode host (load 4 (host_encode host 4 (u32 v))) = u32 v.
Proof.
  assert (E : load 4 (host_encode host 4 (u32 v)) = host_encode host 4 (u32 v)).
  { destruct host; reflexivity. }
  rewrite E, host_decode_encode. unfold u32.
  change (256 ^ Z.of_nat 4) with (2 ^ 32). apply Z.mod_mod. lia.
Qed.

Lemma length_load n l : length (load n l) = n.
Proof.
  unfold load. rewrite length_firstn, length_app, repeat_length. lia.
Qed.

Lemma ntohl_host_decode host l :
  length l = 4%nat -> ntohl host (host_decode host l) = be_decode l.
Proof.
  intros H. unfold ntohl.
  replace 4%nat with (length l). rewrite host_encode_decode. reflexivity.
Qed.

Lemma all_zero_rev l : all_zero (rev l) = all_zero l.
Proof.
  unfold all_zero. induction l as [|b r IH]; simpl; [reflexivity|].
  rewrite forallb_app, IH. simpl. rewrite andb_true_r. apply andb_comm.
Qed.

Lemma byte_eqb_x00 b : Byte.eqb b x00 = (byte_val b =? 0).
Proof.
  destruct (byte_val b =? 0) eqn:E.
  - apply Z.eqb_eq in E. apply Byte.byte_dec_lb.
    rewrite <- (byte_of_val b), E. reflexivity.
  - destruct (Byte.eqb b x00) eqn:E'; [|reflexivity].
    apply Byte.byte_dec_bl in E'. subst b. discriminate.
Qed.

Lemma le_decode_zero l : (le_decode l =? 0) = all_zero l.
Proof.
  unfold all_zero. induction l as [|b r IH]; cbn [le_decode forallb];
    [reflexivity|].
  rewrite byte_eqb_x00, <- IH.
  pose proof (byte_val_range b). pose proof (le_decode_nonneg r).
  destruct (byte_val b =? 0) eqn:Eb, (le_decode r =? 0) eqn:Er;
    cbn [andb]; rewrite ?Z.eqb_eq, ?Z.eqb_neq in *; lia.
Qed.

Lemma host_decode_zero host l : (host_decode host l =? 0) = all_zero l.
Proof.
  destruct host; simpl.
  - apply le_decode_zero.
  - unfold be_decode. rewrite le_decode_zero. apply all_zero_rev.
Qed.

(* ================================================================== *)
(** ** The entry encoder *)
(* ================================================================== *)

Lemma vni_loop_eq host nb reqsize group gt olds n :
  vni_loop host nb reqsize group gt olds n =
  match strtok olds "," with
  | None => n
  | Some (vni, olds') =>
      let '(vni_start, vni_end) := parse_vni_token vni in
      vni_loop host nb reqsize group gt olds'
        (add_vni_entry host nb n reqsize vni_start vni_end group gt)
  end.
Proof.
  rewrite vni_loop_equation_1.
  destruct (inspect (strtok olds ",")) as [[[v o']|] e];
    cbn [vni_loop_unfold_clause_1]; rewrite e; reflexivity.
Qed.


Lemma skipn_past {A} (l : list A) x ch :
  skipn (S (length l)) (l ++ x :: ch) = ch.
Proof.
  induction l as [|a l IH]; [reflexivity|exact IH].
Qed.

Lemma firstn_before {A} (l : list A) x ch :
  firstn (length l) (l ++ x :: ch) = l.
Proof.
  induction l as [|a l IH]; [reflexivity|]. cbn. f_equal. exact IH.
Qed.

Lemma nth_error_at {A} (l : list A) x ch :
  nth_error (l ++ x :: ch) (length l) = Some x.
Proof.
  induction l as [|a l IH]; [reflexivity|exact IH].
Qed.

(** Closing the nest opened at the end of [l] wraps what came after it. *)
Lemma nest_end_app (nb : list rtattr -> list byte) n l x ch :
  req_attrs n = l ++ x :: ch ->
  req_attrs (addattr_nest_end nb n (length l)) =
  l ++ [mk_rtattr (rta_type x) (nb ch) ch].
Proof.
  intros E. unfold addattr_nest_end.
  rewrite E, nth_error_at, firstn_before, skipn_past. reflexivity.
Qed.

Lemma firstn_host_encode host (n : nat) z :
  firstn n (host_encode host n z) = host_encode host n z.
Proof.
  apply firstn_all2. destruct host; simpl; unfold be_encode;
    rewrite ?length_rev, length_le_encode; lia.
Qed.

Lemma addattr32_attrs host n maxlen type v :
  req_attrs (addattr32 host n maxlen type v) =
  req_attrs n ++ [attr32 host (u16 type) v].
Proof.
  unfold addattr32, addattr_l, with_attrs, attr32; cbn [req_attrs].
  change (Z.to_nat 4) with 4%nat. rewrite firstn_host_encode. reflexivity.
Qed.

Lemma add_vni_entry_attrs host nb n reqsize vs ve group gt :
  req_attrs (add_vni_entry host nb n reqsize vs ve group gt) =
  req_attrs n
    ++ [mk_rtattr (u16 (Z.lor VXLAN_VNIFILTER_ENTRY NLA_F_NESTED))
                  (nb (entry_children host vs ve group gt))
                  (entry_children host vs ve group gt)].
Proof.
  unfold add_vni_entry, addattr_nest.
  match goal with
  | |- req_attrs (addattr_nest_end _ ?m _) = _ =>
      assert (E : req_attrs m =
                  req_attrs n
                    ++ mk_rtattr
                         (u16 (Z.lor VXLAN_VNIFILTER_ENTRY NLA_F_NESTED))
                         [] []
                    :: entry_children host vs ve group gt)
  end.
  { unfold entry_children.
    destruct (ve =? 0), group as [g|]; cbn [negb];
      unfold addattr_l at 1; unfold with_attrs at 1; cbn [req_attrs];
      rewrite ?addattr32_attrs;
      unfold addattr_l, with_attrs; cbn [req_attrs];
      rewrite <- ?app_assoc; reflexivity. }
  rewrite (nest_end_app nb _ _ _ _ E). reflexivity.
Qed.

Lemma vni_group_type_cases group :
  vni_group_type group = VXLAN_VNIFILTER_ENTRY_GROUP
  \/ vni_group_type group = VXLAN_VNIFILTER_ENTRY_GROUP6
  \/ vni_group_type group = AF_UNSPEC.
Proof.
  destruct group as [g|]; cbn [vni_group_type]; auto.
  destruct (is_addrtype_inet g); auto. destruct (family g =? AF_INET); auto.
Qed.


Lemma entry_range_children host type image vs ve group :
  entry_range host
    (mk_rtattr type image
       (entry_children host vs ve group (vni_group_type group))) =
  mk_range (u32 vs) (if ve =? 0 then None else Some (u32 ve)).
Proof.
  unfold entry_range, entry_children; cbn [rta_nested].
  destruct (vni_group_type_cases group) as [E|[E|E]]; rewrite E; clear E;
    destruct (ve =? 0), group as [g|];
    cbn [parse_rtattr_flags find app attr32 rta_type option_map andb
         Z.leb Z.eqb Z.compare Pos.compare Pos.compare_cont
         VXLAN_VNIFILTER_ENTRY_START VXLAN_VNIFILTER_ENTRY_END
         VXLAN_VNIFILTER_ENTRY_MAX];
    decide_types; unfold rta_getattr_u32; cbn [rta_data attr32 option_map];
    rewrite ?u32_getattr_of_encode; reflexivity.
Qed.



(* ================================================================== *)
(** ** The range parser *)
(* ================================================================== *)

Section Tokens.

Variable c : ascii.







End Tokens.

Lemma list_ascii_of_append s1 s2 :
  list_ascii_of_string (String.append s1 s2) =
  list_ascii_of_string s1 ++ list_ascii_of_string s2.
Proof.
  induction s1 as [|a s1 IH]; cbn; [reflexivity|]. f_equal. exact IH.
Qed.














(** Between two commas that follow each other there is no token: [strtok]
    steps over them, and no range is made. *)
Example parse_skips_empty_fields :
  parse LittleEndian no_image ",100,,200,"
  = [mk_range 100 None; mk_range 200 None].
Proof. reflexivity. Qed.

(* ================================================================== *)
(** ** The request builder *)
(* ================================================================== *)

(** Induction on an argument list that is consumed one or two words at a
    time. *)
Lemma argv_ind (P : list string -> Prop) :
  P [] ->
  (forall w rest,
      P rest -> (forall v rest', rest = v :: rest' -> P rest') ->
      P (w :: rest)) ->
  forall argv, P argv.
Proof.
  intros H0 Hstep argv.
  assert (H : P argv /\ forall w, P (w :: argv)).
  { induction argv as [|v argv [IH1 IH2]].
    - split; [exact H0|]. intros w. apply Hstep; [exact H0|discriminate].
    - split; [apply IH2|]. intros w. apply Hstep; [apply IH2|].
      intros v' rest' [= <- <-]. exact IH1. }
  exact (proj1 H).
Qed.


Section ModifyFacts.

Variable get_addr : string -> option inet_prefix.

Lemma modify_args_stop argv :
  forall l o, modify_args get_addr argv l = inl o -> early_stop o.
Proof.
  induction argv as [|w rest IH1 IH2] using argv_ind; intros l o;
    cbn [modify_args].
  - discriminate.
  - destruct (String.eqb w "dev").
    { destruct rest as [|v rest']; [intros [= <-]; cbn; discriminate|].
      apply (IH2 v rest' eq_refl). }
    destruct (String.eqb w "vni").
    { destruct rest as [|v rest']; [intros [= <-]; cbn; discriminate|].
      destruct (vni l); [intros [= <-]; cbn; discriminate|].
      apply (IH2 v rest' eq_refl). }
    destruct (String.eqb w "group").
    { destruct (group_present l); [intros [= <-]; cbn; discriminate|].
      destruct (is_addrtype_inet_not_multi (daddr l));
        [intros [= <-]; cbn; auto|].
      destruct rest as [|v rest']; [intros [= <-]; cbn; discriminate|].
      destruct (get_addr v) as [addr|]; [|intros [= <-]; cbn; discriminate].
      destruct (negb (is_addrtype_inet_multi addr));
        [intros [= <-]; cbn; discriminate|].
      apply (IH2 v rest' eq_refl). }
    destruct (String.eqb w "remote").
    { destruct (group_present l); [intros [= <-]; cbn; discriminate|].
      destruct rest as [|v rest']; [intros [= <-]; cbn; discriminate|].
      destruct (get_addr v) as [addr|]; [|intros [= <-]; cbn; discriminate].
      apply (IH2 v rest' eq_refl). }
    destruct (String.eqb w "help"); [intros [= <-]; cbn; discriminate|].
    apply IH1.
Qed.


(** Once an endpoint has been read, a second endpoint option stops the
    loop. *)
Lemma modify_args_second_endpoint argv :
  forall l,
    group_present l = true ->
    supplied "group" argv || supplied "remote" argv = true ->
    exists o, modify_args get_addr argv l = inl o.
Proof.
  unfold supplied.
  induction argv as [|w rest IH1 IH2] using argv_ind; intros l Hg;
    cbn [modify_args options].
  - discriminate.
  - unfold is_option_word.
    destruct (String.eqb w "dev") eqn:Edev.
    { cbn [orb]. destruct rest as [|v rest']; [eauto|].
      cbn [existsb fst].
      apply String.eqb_eq in Edev. subst w. cbn [String.eqb Ascii.eqb Bool.eqb orb andb].
      apply (IH2 v rest' eq_refl). exact Hg. }
    destruct (String.eqb w "vni") eqn:Evni.
    { cbn [orb]. destruct rest as [|v rest']; [eauto|].
      destruct (vni l); [eauto|].
      cbn [existsb fst].
      apply String.eqb_eq in Evni. subst w. cbn [String.eqb Ascii.eqb Bool.eqb orb andb].
      apply (IH2 v rest' eq_refl). exact Hg. }
    destruct (String.eqb w "group") eqn:Egroup.
    { rewrite Hg. eauto. }
    destruct (String.eqb w "remote") eqn:Eremote.
    { rewrite Hg. eauto. }
    cbn [orb]. destruct (String.eqb w "help"); [eauto|].
    apply IH1. exact Hg.
Qed.

(** With both a group and a remote option the loop stops. *)
Lemma modify_args_both_endpoints argv :
  forall l,
    supplied "group" argv = true ->
    supplied "remote" argv = true ->
    exists o, modify_args get_addr argv l = inl o.
Proof.
  induction argv as [|w rest IH1 IH2] using argv_ind; intros l.
  - discriminate.
  - destruct (group_present l) eqn:Hg.
    { intros H _. apply modify_args_second_endpoint; [exact Hg|].
      rewrite H. reflexivity. }
    unfold supplied. cbn [modify_args options]. unfold is_option_word.
    rewrite Hg.
    destruct (String.eqb w "dev") eqn:Edev.
    { cbn [orb]. destruct rest as [|v rest']; [eauto|].
      cbn [existsb fst].
      apply String.eqb_eq in Edev. subst w. cbn [String.eqb Ascii.eqb Bool.eqb orb andb].
      apply (IH2 v rest' eq_refl). }
    destruct (String.eqb w "vni") eqn:Evni.
    { cbn [orb]. destruct rest as [|v rest']; [eauto|].
      destruct (vni l); [eauto|].
      cbn [existsb fst].
      apply String.eqb_eq in Evni. subst w. cbn [String.eqb Ascii.eqb Bool.eqb orb andb].
      apply (IH2 v rest' eq_refl). }
    destruct (String.eqb w "group") eqn:Egroup.
    { assert (Eremote : String.eqb w "remote" = false).
      { rewrite (proj1 (String.eqb_eq _ _) Egroup). reflexivity. }
      cbn [orb].
      destruct (is_addrtype_inet_not_multi (daddr l)); [eauto|].
      destruct rest as [|v rest']; [eauto|].
      destruct (get_addr v) as [addr|]; [|eauto].
      destruct (negb (is_addrtype_inet_multi addr)); [eauto|].
      cbn [existsb fst]. rewrite Egroup, Eremote. cbn [orb].
      intros _ Hr. apply modify_args_second_endpoint; [reflexivity|].
      unfold supplied. rewrite Hr. apply orb_true_r. }
    destruct (String.eqb w "remote") eqn:Eremote.
    { cbn [orb].
      destruct rest as [|v rest']; [eauto|].
      destruct (get_addr v) as [addr|]; [|eauto].
      cbn [existsb fst]. rewrite Egroup. cbn [orb].
      intros Hgr _. apply modify_args_second_endpoint; [reflexivity|].
      unfold supplied. rewrite Hgr. reflexivity. }
    cbn [orb]. destruct (String.eqb w "help"); [eauto|].
    apply IH1.
Qed.

End ModifyFacts.

Lemma early_stop_fails o :
  early_stop o ->
  sent_request o = None /\ succeeded o = false
  /\ diagnostic_of o <> Some group_only_with_vni.
Proof.
  destruct o as [status why|r why sent]; cbn.
  - intros H. repeat split; congruence.
  - intros [-> [-> ->]]. repeat split; discriminate.
Qed.




(** C7.  An invocation with both a group option and a remote option, in
    either order, sends no request and fails. *)
Theorem group_and_remote_exclude_each_other host nest_bytes get_addr
        ll_name_to_index rtnl_talk cmd argv daddr0 :
  supplied "group" argv = true ->
  supplied "remote" argv = true ->
  let o :=
    vni_modify host nest_bytes get_addr ll_name_to_index rtnl_talk cmd argv
               daddr0 in
  sent_request o = None /\ succeeded o = false.
Proof.
  intros Hg Hr o. subst o. unfold vni_modify.
  destruct (modify_args_both_endpoints get_addr argv
              (mk_locals false daddr0 None None) Hg Hr) as [stop E].
  rewrite E. apply modify_args_stop in E.
  apply early_stop_fails in E as [E1 [E2 _]]. auto.
Qed.

Lemma group_and_remote_exclude_each_other_witness :
  let argv :=
    ["vni"; "100"; "remote"; "10.0.0.1"; "group"; "239.1.1.1";
     "dev"; "vxlan0"] in
  supplied "group" argv = true
  /\ supplied "remote" argv = true
  /\ succeeded
       (vni_modify LittleEndian no_image (fun _ => Some group_239_1_1_1)
                   (fun _ => 4) (fun _ => 0) RTM_NEWTUNNEL argv
                   (mk_inet_prefix 0 0 0 0 []))
     = false.
Proof.
  cbv zeta. split; [reflexivity|]. split; [reflexivity|].
  exact (proj2
           (group_and_remote_exclude_each_other LittleEndian no_image
              (fun _ => Some group_239_1_1_1) (fun _ => 4) (fun _ => 0)
              RTM_NEWTUNNEL
              ["vni"; "100"; "remote"; "10.0.0.1"; "group"; "239.1.1.1";
               "dev"; "vxlan0"]
              (mk_inet_prefix 0 0 0 0 []) eq_refl eq_refl)).
Defined.

(* ================================================================== *)
(** ** Addresses: multicast or not *)
(* ================================================================== *)

Lemma land_top_nibble a :
  0 <= a < 2 ^ 32 -> Z.land a 0xf0000000 = 2 ^ 28 * (a / 2 ^ 28).
Proof.
  intros Ha. apply Z.bits_inj'. intros i Hi.
  rewrite Z.land_spec.
  rewrite (Z.mul_comm (2 ^ 28)), <- Z.shiftl_mul_pow2 by lia.
  rewrite <- Z.shiftr_div_pow2 by lia.
  destruct (Z.ltb_spec i 28) as [Hlt|Hge].
  - rewrite Z.shiftl_spec_low by lia.
    change 0xf0000000 with (Z.shiftl 15 28).
    rewrite Z.shiftl_spec_low by lia. apply andb_false_r.
  - rewrite Z.shiftl_spec by lia. rewrite Z.shiftr_spec by lia.
    replace (i - 28 + 28) with i by lia.
    destruct (Z.ltb_spec i 32) as [Hlt|Hge'].
    + change 0xf0000000 with (Z.shiftl (Z.ones 4) 28).
      rewrite Z.shiftl_spec by lia. rewrite Z.ones_spec_low by lia.
      apply andb_true_r.
    + assert (E : Z.testbit a i = false).
      { destruct (Z.eq_dec a 0) as [->|Hnz]; [apply Z.bits_0|].
        apply Z.bits_above_log2; [lia|].
        assert (Z.log2 a < 32) by (apply Z.log2_lt_pow2; lia). lia. }
      rewrite E. reflexivity.
Qed.

Lemma IN_MULTICAST_be b0 b1 b2 b3 :
  IN_MULTICAST (be_decode [b0; b1; b2; b3]) = ipv4_multicast [b0; b1; b2; b3].
Proof.
  unfold IN_MULTICAST, ipv4_multicast, be_decode. cbn [rev app le_decode].
  pose proof (byte_val_range b0). pose proof (byte_val_range b1).
  pose proof (byte_val_range b2). pose proof (byte_val_range b3).
  set (a := byte_val b3 + 256 * (byte_val b2 + 256 * (byte_val b1 + 256 * (byte_val b0 + 256 * 0)))).
  assert (Ha : 0 <= a < 2 ^ 32) by (subst a; lia).
  rewrite (land_top_nibble a Ha).
  assert (Hq : a / 2 ^ 28 = byte_val b0 / 16).
  { subst a.
    replace (byte_val b3 + 256 * (byte_val b2 + 256 * (byte_val b1 + 256 * (byte_val b0 + 256 * 0))))
      with ((byte_val b3 + 256 * byte_val b2 + 65536 * byte_val b1)
            + byte_val b0 * 2 ^ 24) by lia.
    change (2 ^ 28) with (2 ^ 24 * 16).
    rewrite <- Z.div_div by lia.
    rewrite Z.div_add by lia.
    rewrite (Z.div_small (byte_val b3 + 256 * byte_val b2 + 65536 * byte_val b1))
      by lia.
    reflexivity. }
  rewrite Hq.
  destruct (2 ^ 28 * (byte_val b0 / 16) =? 0xe0000000) eqn:E1;
    destruct ((224 <=? byte_val b0) && (byte_val b0 <=? 239)) eqn:E2;
    try reflexivity; exfalso;
    rewrite ?Z.eqb_eq, ?Z.eqb_neq, ?andb_true_iff, ?andb_false_iff,
            ?Z.leb_le, ?Z.leb_gt in *;
    pose proof (Z.div_mod (byte_val b0) 16 ltac:(lia));
    pose proof (Z.mod_pos_bound (byte_val b0) 16 ltac:(lia)); lia.
Qed.

Lemma byte_eqb_xff b : Byte.eqb b xff = (byte_val b =? 255).
Proof.
  destruct (byte_val b =? 255) eqn:E.
  - apply Z.eqb_eq in E. apply Byte.byte_dec_lb.
    rewrite <- (byte_of_val b), E. reflexivity.
  - destruct (Byte.eqb b xff) eqn:E'; [|reflexivity].
    apply Byte.byte_dec_bl in E'. subst b. discriminate.
Qed.

(** The IPv4 branch of [print_vni], by the bytes of the attribute. *)
Lemma print_vni_endpoint_ipv4 host ttb a :
  ttb VXLAN_VNIFILTER_ENTRY_GROUP = Some a ->
  print_vni_endpoint host ttb
  = endpoint_calls AF_INET 4 (load 4 (rta_data a))
                   (classify ipv4_multicast (load 4 (rta_data a))).
Proof.
  intros H. unfold print_vni_endpoint, rta_getattr_u32, classify. rewrite H.
  pose proof (length_load 4 (rta_data a)) as Hl.
  set (l := load 4 (rta_data a)) in *.
  rewrite host_decode_zero.
  rewrite (ntohl_host_decode host l Hl).
  assert (Henc : host_encode host 4 (host_decode host l) = l).
  { pose proof (host_encode_decode host l) as Hed.
    rewrite Hl in Hed. exact Hed. }
  rewrite Henc.
  assert (E : IN_MULTICAST (be_decode l) = ipv4_multicast l).
  { destruct l as [|b0 [|b1 [|b2 [|b3 [|]]]]]; try discriminate Hl.
    apply IN_MULTICAST_be. }
  rewrite E.
  destruct (all_zero l); cbn [negb]; [reflexivity|].
  destruct (ipv4_multicast l); reflexivity.
Qed.

(** The IPv6 branch, taken only when there is no IPv4 attribute. *)
Lemma print_vni_endpoint_ipv6 host ttb a :
  ttb VXLAN_VNIFILTER_ENTRY_GROUP = None ->
  ttb VXLAN_VNIFILTER_ENTRY_GROUP6 = Some a ->
  print_vni_endpoint host ttb
  = endpoint_calls AF_INET6 16 (load 16 (rta_data a))
                   (classify ipv6_multicast (load 16 (rta_data a))).
Proof.
  intros H4 H6. unfold print_vni_endpoint, classify. rewrite H4, H6.
  unfold IN6_IS_ADDR_UNSPECIFIED, IN6_IS_ADDR_MULTICAST, ipv6_multicast.
  set (l := load 16 (rta_data a)).
  destruct (all_zero l); cbn [negb]; [reflexivity|].
  destruct l as [|b r]; [reflexivity|]. rewrite byte_eqb_xff.
  destruct (byte_val b =? 255); reflexivity.
Qed.

(** C4.  The block that encodes the range 100-105 with the multicast group
    239.1.1.1 decodes to the range 100 to 105 with the address printed as
    "group", and not as "remote"; and in every entry block an IPv4 address,
    or an IPv6 address when there is no IPv4 one, is printed as "group" when
    it is multicast, as "remote" when it is not, and not at all when all its
    bytes are zero. *)
Theorem decoded_endpoint_is_group_or_remote host nest_bytes :
  (exists block,
      req_attrs
        (snd (parse_vni_filter host nest_bytes "100-105"
                (empty_request RTM_NEWTUNNEL) sizeof_req
                (Some group_239_1_1_1)))
      = [block]
      /\ entry_range host block = mk_range 100 (Some 105)
      /\ forall ifindex,
          print_vni host block ifindex
          = [ print_uint PRINT_ANY (Some "vni") " %u" 100;
              print_uint PRINT_ANY (Some "vniEnd") "-%-14u " 105;
              print_string PRINT_ANY (Some "group") " %s"
                           (format_host AF_INET 4 [xef; x01; x01; x01]);
              close_json_object;
              print_string PRINT_FP None "%s" _SL_ ])
  /\ (forall ttb a,
         ttb VXLAN_VNIFILTER_ENTRY_GROUP = Some a ->
         print_vni_endpoint host ttb
         = endpoint_calls AF_INET 4 (load 4 (rta_data a))
                          (classify ipv4_multicast (load 4 (rta_data a))))
  /\ (forall ttb a,
         ttb VXLAN_VNIFILTER_ENTRY_GROUP = None ->
         ttb VXLAN_VNIFILTER_ENTRY_GROUP6 = Some a ->
         print_vni_endpoint host ttb
         = endpoint_calls AF_INET6 16 (load 16 (rta_data a))
                          (classify ipv6_multicast (load 16 (rta_data a))))
  /\ (forall ttb,
         ttb VXLAN_VNIFILTER_ENTRY_GROUP = None ->
         ttb VXLAN_VNIFILTER_ENTRY_GROUP6 = None ->
         print_vni_endpoint host ttb = []).
Proof.
  split; [|split; [|split]].
  - eexists. split; [|split].
    + unfold parse_vni_filter; cbn [snd]. rewrite vni_loop_eq.
      change (strtok (list_ascii_of_string "100-105") ",")
        with (Some (list_ascii_of_string "100-105", @nil ascii)).
      cbv iota beta.
      change (parse_vni_token (list_ascii_of_string "100-105"))
        with (100, 105).
      cbv iota beta. rewrite vni_loop_eq.
      change (strtok [] ",") with (@None (list ascii * list ascii)).
      cbv iota beta. rewrite add_vni_entry_attrs. reflexivity.
    + apply entry_range_children.
    + intros ifindex. destruct host; reflexivity.
  - apply print_vni_endpoint_ipv4.
  - apply print_vni_endpoint_ipv6.
  - intros ttb H4 H6. unfold print_vni_endpoint. rewrite H4, H6. reflexivity.
Qed.

Lemma decoded_endpoint_is_group_or_remote_witness :
  let a := mk_rtattr VXLAN_VNIFILTER_ENTRY_GROUP [x0a; x00; x00; x01] [] in
  let ttb :=
    parse_rtattr_flags VXLAN_VNIFILTER_ENTRY_MAX [a] NLA_F_NESTED in
  ttb VXLAN_VNIFILTER_ENTRY_GROUP = Some a
  /\ print_vni_endpoint BigEndian ttb
     = [print_string PRINT_ANY (Some "remote") " %s"
                     (format_host AF_INET 4 [x0a; x00; x00; x01])].
Proof.
  cbv zeta. split; [reflexivity|].
  exact (proj1 (proj2 (decoded_endpoint_is_group_or_remote BigEndian no_image))
               _ _ eq_refl).
Defined.

(* ================================================================== *)
(** ** The reply decoder: which messages are decoded *)
(* ================================================================== *)

Lemma is_tunnel_kind_guard type :
  negb (type =? RTM_NEWTUNNEL) && negb (type =? RTM_DELTUNNEL)
  && negb (type =? RTM_GETTUNNEL)
  = negb (is_tunnel_kind type).
Proof.
  unfold is_tunnel_kind.
  destruct (type =? RTM_NEWTUNNEL), (type =? RTM_DELTUNNEL),
    (type =? RTM_GETTUNNEL); reflexivity.
Qed.

Lemma header_length_ok n :
  holds_tunnel_header n = true -> (payload_len n <? 0) = false.
Proof.
  unfold holds_tunnel_header, payload_len, NLMSG_LENGTH, sizeof_tunnel_msg,
    NLMSG_HDRLEN.
  intros H. apply andb_true_iff in H as [H1 H2].
  apply Z.leb_le in H1. apply Z.ltb_lt in H2. apply Z.ltb_ge.
  unfold int32.
  rewrite (Z.mod_small (nlmsg_len n + 2 ^ 31)) by lia.
  rewrite Z.mod_small by lia. lia.
Qed.

Lemma print_vnifilter_rtm_len host fi n :
  print_vnifilter_rtm host fi n
  = if negb (is_tunnel_kind (nlmsg_type n)) then
      mk_rtm_result 0 []
        [unknown_vni_tunnel_rtm_msg (nlmsg_len n) (nlmsg_type n)
                                    (nlmsg_flags n)]
    else if payload_len n <? 0 then
      mk_rtm_result (-1) [] [bug_wrong_nlmsg_len (payload_len n)]
    else if negb (accepted fi n) then mk_rtm_result 0 [] []
    else
      mk_rtm_result 0
        (print_headers "[TUNNEL]"
           :: (if nlmsg_type n =? RTM_DELTUNNEL
               then [print_bool PRINT_ANY (Some "deleted") "Deleted " true]
               else [])
           ++ rtm_entries host (tunnel_rta n) true (tm_ifindex (tmsg n))
           ++ close_vni_port
           ++ [ print_string PRINT_FP None "%s" _SL_; fflush_stdout ])
        [].
Proof.
  unfold print_vnifilter_rtm, accepted. rewrite is_tunnel_kind_guard.
  fold (payload_len n).
  destruct (is_tunnel_kind (nlmsg_type n)); cbn [negb andb]; [|reflexivity].
  destruct (Z.ltb_spec (payload_len n) 0) as [Hl|Hl]; [reflexivity|].
  apply Z.leb_le in Hl. rewrite Hl.
  destruct (tm_family (tmsg n) =? AF_BRIDGE); cbn [negb andb]; [|reflexivity].
  destruct (fi =? 0), (fi =? tm_ifindex (tmsg n)); reflexivity.
Qed.

(** What the decoder prints for a message it accepts. *)
Lemma print_vnifilter_rtm_accepted host fi n :
  accepted fi n = true ->
  print_vnifilter_rtm host fi n
  = mk_rtm_result 0
      (print_headers "[TUNNEL]"
         :: (if nlmsg_type n =? RTM_DELTUNNEL
             then [print_bool PRINT_ANY (Some "deleted") "Deleted " true]
             else [])
         ++ rtm_entries host (tunnel_rta n) true (tm_ifindex (tmsg n))
         ++ close_vni_port
         ++ [ print_string PRINT_FP None "%s" _SL_; fflush_stdout ])
      [].
Proof.
  intros H. rewrite print_vnifilter_rtm_len, H.
  unfold accepted in H.
  apply andb_true_iff in H as [H _]. apply andb_true_iff in H as [H _].
  apply andb_true_iff in H as [Hk Hl]. rewrite Hk. cbn [negb].
  apply Z.leb_le in Hl.
  destruct (Z.ltb_spec (payload_len n) 0) as [Hlt|_]; [lia|reflexivity].
Qed.

(** A message that is not accepted prints nothing. *)
Lemma print_vnifilter_rtm_rejected host fi n :
  accepted fi n = false -> out (print_vnifilter_rtm host fi n) = [].
Proof.
  intros H. rewrite print_vnifilter_rtm_len, H.
  destruct (negb (is_tunnel_kind (nlmsg_type n))); [reflexivity|].
  destruct (payload_len n <? 0); reflexivity.
Qed.

(** A message that is not for the filter index prints nothing, whatever
    else it holds. *)
Lemma print_vnifilter_rtm_other_index host fi n :
  fi <> 0 -> tm_ifindex (tmsg n) <> fi ->
  out (print_vnifilter_rtm host fi n) = [].
Proof.
  intros Hfi Hn. unfold print_vnifilter_rtm.
  destruct (negb (nlmsg_type n =? RTM_NEWTUNNEL)
            && negb (nlmsg_type n =? RTM_DELTUNNEL)
            && negb (nlmsg_type n =? RTM_GETTUNNEL)); [reflexivity|].
  fold (payload_len n). destruct (payload_len n <? 0); [reflexivity|].
  destruct (negb (tm_family (tmsg n) =? AF_BRIDGE)); [reflexivity|].
  apply Z.eqb_neq in Hfi. rewrite Hfi.
  assert (E : (fi =? tm_ifindex (tmsg n)) = false) by (apply Z.eqb_neq; lia).
  rewrite E. reflexivity.
Qed.

Lemma rtnl_dump_filter_skip filter pre n post :
  ret (filter n) = 0 -> out (filter n) = [] ->
  ret (rtnl_dump_filter filter (pre ++ n :: post))
  = ret (rtnl_dump_filter filter (pre ++ post))
  /\ out (rtnl_dump_filter filter (pre ++ n :: post))
     = out (rtnl_dump_filter filter (pre ++ post)).
Proof.
  intros Hr Ho. induction pre as [|m pre IH]; cbn [app rtnl_dump_filter].
  - rewrite Hr, Ho. cbn [Z.ltb Z.compare ret out app]. auto.
  - destruct (ret (filter m) <? 0); [auto|].
    cbn [ret out]. destruct IH as [-> ->]. auto.
Qed.

(** C5, as the code has it.  A message of another kind than the three
    tunnel kinds is skipped: the decoder returns 0 and prints nothing.  A
    message of one of these kinds that is long enough for the fixed tunnel
    header and whose family is not the bridge family is skipped in the same
    way.  A skipped message changes neither the result nor the output of
    the dump it is part of. *)
Theorem unexpected_messages_are_skipped host filter_index n :
  (is_tunnel_kind (nlmsg_type n) = false ->
   print_vnifilter_rtm host filter_index n
   = mk_rtm_result 0 []
       [unknown_vni_tunnel_rtm_msg (nlmsg_len n) (nlmsg_type n)
                                   (nlmsg_flags n)])
  /\ (is_tunnel_kind (nlmsg_type n) = true ->
      holds_tunnel_header n = true ->
      tm_family (tmsg n) <> AF_BRIDGE ->
      print_vnifilter_rtm host filter_index n = mk_rtm_result 0 [] [])
  /\ (is_tunnel_kind (nlmsg_type n) = false
      \/ (holds_tunnel_header n = true /\ tm_family (tmsg n) <> AF_BRIDGE) ->
      forall pre post,
        let dump := rtnl_dump_filter (print_vnifilter_rtm_filter host filter_index) in
        ret (dump (pre ++ n :: post)) = ret (dump (pre ++ post))
        /\ out (dump (pre ++ n :: post)) = out (dump (pre ++ post))).
Proof.
  assert (A : is_tunnel_kind (nlmsg_type n) = false ->
              print_vnifilter_rtm host filter_index n
              = mk_rtm_result 0 []
                  [unknown_vni_tunnel_rtm_msg (nlmsg_len n) (nlmsg_type n)
                                              (nlmsg_flags n)]).
  { intros Hk. unfold print_vnifilter_rtm.
    rewrite is_tunnel_kind_guard, Hk. reflexivity. }
  assert (B : is_tunnel_kind (nlmsg_type n) = true ->
              holds_tunnel_header n = true ->
              tm_family (tmsg n) <> AF_BRIDGE ->
              print_vnifilter_rtm host filter_index n = mk_rtm_result 0 [] []).
  { intros Hk Hl Hf. unfold print_vnifilter_rtm.
    rewrite is_tunnel_kind_guard, Hk. cbn [negb andb].
    fold (payload_len n). rewrite (header_length_ok n Hl).
    apply Z.eqb_neq in Hf. rewrite Hf. reflexivity. }
  split; [exact A|]. split; [exact B|].
  intros H pre post dump. subst dump.
  apply rtnl_dump_filter_skip; unfold print_vnifilter_rtm_filter.
  - destruct (is_tunnel_kind (nlmsg_type n)) eqn:Hk.
    + destruct H as [H|[Hl Hf]]; [discriminate|]. rewrite B; auto.
    + rewrite A; auto.
  - destruct (is_tunnel_kind (nlmsg_type n)) eqn:Hk.
    + destruct H as [H|[Hl Hf]]; [discriminate|]. rewrite B; auto.
    + rewrite A; auto.
Qed.

Lemma unexpected_messages_are_skipped_witness :
  let n := mk_nlmsghdr 24 RTM_NEWTUNNEL 0 (mk_tunnel_msg AF_INET 3) [] in
  is_tunnel_kind (nlmsg_type n) = true
  /\ holds_tunnel_header n = true
  /\ tm_family (tmsg n) <> AF_BRIDGE
  /\ print_vnifilter_rtm LittleEndian 0 n = mk_rtm_result 0 [] [].
Proof.
  cbv zeta. split; [reflexivity|]. split; [reflexivity|].
  split; [discriminate|].
  apply (proj1 (proj2 (unexpected_messages_are_skipped LittleEndian 0 _)));
    [reflexivity|reflexivity|discriminate].
Defined.

(** C5, as stated, fails: a new-tunnel message of 20 bytes, too short for
    the tunnel header, with the family AF_INET, is not skipped; the decoder
    reports a wrong length and returns -1, which ends the dump. *)
Lemma short_message_of_other_family_is_fatal :
  let n := mk_nlmsghdr 20 RTM_NEWTUNNEL 0 (mk_tunnel_msg AF_INET 3) [] in
  tm_family (tmsg n) <> AF_BRIDGE
  /\ print_vnifilter_rtm LittleEndian 0 n
     = mk_rtm_result (-1) [] [bug_wrong_nlmsg_len (-4)].
Proof.
  cbv zeta. split; [discriminate|reflexivity].
Qed.

(* ================================================================== *)
(** ** The reply decoder: the filter index *)
(* ================================================================== *)

Lemma rtnl_dump_filter_out filter msgs :
  out (rtnl_dump_filter filter msgs)
  = flat_map (fun n => out (filter n)) (delivered filter msgs).
Proof.
  induction msgs as [|n msgs IH]; cbn [rtnl_dump_filter delivered flat_map].
  - reflexivity.
  - destruct (ret (filter n) <? 0); cbn [flat_map out].
    + symmetry; apply app_nil_r.
    + rewrite IH. reflexivity.
Qed.

Lemma flat_map_filter_nil {A B} (f : A -> list B) (p : A -> bool) l :
  (forall x, p x = false -> f x = []) ->
  flat_map f l = flat_map f (filter p l).
Proof.
  intros H. induction l as [|x l IH]; cbn [flat_map filter]; [reflexivity|].
  destruct (p x) eqn:E; cbn [flat_map].
  - rewrite IH. reflexivity.
  - rewrite (H x E). exact IH.
Qed.

Lemma print_vnifilter_rtm_ret host fi n :
  holds_tunnel_header n = true -> ret (print_vnifilter_rtm host fi n) = 0.
Proof.
  intros Hl. unfold print_vnifilter_rtm. fold (payload_len n).
  rewrite (header_length_ok n Hl).
  repeat match goal with
         | |- context [if ?b then _ else _] => destruct b
         end; reflexivity.
Qed.

Lemma delivered_all host fi msgs :
  forallb holds_tunnel_header msgs = true ->
  delivered (print_vnifilter_rtm_filter host fi) msgs = msgs.
Proof.
  induction msgs as [|n msgs IH]; cbn [forallb delivered]; intros H.
  - reflexivity.
  - apply andb_true_iff in H as [Hn H]. unfold print_vnifilter_rtm_filter at 1.
    rewrite (print_vnifilter_rtm_ret host fi n Hn). cbn [Z.ltb Z.compare].
    rewrite (IH H). reflexivity.
Qed.

(** C6.  With a filter index that is not zero, a message of another
    interface index prints nothing, and what a dump prints is what the
    messages of the filter index print, in their order, among those that
    reach the decoder; when no message is cut short these are all the
    messages of the filter index. *)
Theorem only_the_filter_index_is_decoded host filter_index msgs :
  filter_index <> 0 ->
  let decode := print_vnifilter_rtm_filter host filter_index in
  let mine n := tm_ifindex (tmsg n) =? filter_index in
  (forall n, mine n = false -> out (decode n) = [])
  /\ out (rtnl_dump_filter decode msgs)
     = flat_map (fun n => out (decode n))
                (filter mine (delivered decode msgs))
  /\ (forallb holds_tunnel_header msgs = true ->
      ret (rtnl_dump_filter decode msgs) = 0
      /\ out (rtnl_dump_filter decode msgs)
         = flat_map (fun n => out (decode n)) (filter mine msgs)).
Proof.
  intros Hfi decode mine.
  assert (Skip : forall n, mine n = false -> out (decode n) = []).
  { intros n Hn. subst mine decode. cbv beta in Hn. apply Z.eqb_neq in Hn.
    apply print_vnifilter_rtm_other_index; assumption. }
  assert (Out : out (rtnl_dump_filter decode msgs)
                = flat_map (fun n => out (decode n))
                           (filter mine (delivered decode msgs))).
  { rewrite rtnl_dump_filter_out. apply flat_map_filter_nil. exact Skip. }
  split; [exact Skip|]. split; [exact Out|].
  intros Hall. split.
  - subst decode. clear Out Skip.
    induction msgs as [|n msgs IH]; cbn [rtnl_dump_filter]; [reflexivity|].
    cbn [forallb] in Hall. apply andb_true_iff in Hall as [Hn Hall].
    unfold print_vnifilter_rtm_filter at 1.
    rewrite (print_vnifilter_rtm_ret host filter_index n Hn).
    cbn [Z.ltb Z.compare ret]. exact (IH Hall).
  - rewrite Out. subst decode.
    rewrite (delivered_all host filter_index msgs Hall). reflexivity.
Qed.

Lemma only_the_filter_index_is_decoded_witness :
  let m3 := mk_nlmsghdr 24 RTM_NEWTUNNEL 0 (mk_tunnel_msg AF_BRIDGE 3) [] in
  let m5 := mk_nlmsghdr 24 RTM_NEWTUNNEL 0 (mk_tunnel_msg AF_BRIDGE 5) [] in
  3 <> 0
  /\ out (rtnl_dump_filter (print_vnifilter_rtm_filter LittleEndian 3)
                           [m5; m3; m5])
     = out (print_vnifilter_rtm LittleEndian 3 m3).
Proof.
  cbv zeta. split; [discriminate|].
  pose proof (only_the_filter_index_is_decoded LittleEndian 3
                [mk_nlmsghdr 24 RTM_NEWTUNNEL 0 (mk_tunnel_msg AF_BRIDGE 5) [];
                 mk_nlmsghdr 24 RTM_NEWTUNNEL 0 (mk_tunnel_msg AF_BRIDGE 3) [];
                 mk_nlmsghdr 24 RTM_NEWTUNNEL 0 (mk_tunnel_msg AF_BRIDGE 5) []]
                ltac:(discriminate)) as H.
  cbv zeta in H. destruct H as [_ [_ H]].
  destruct (H eq_refl) as [_ H']. rewrite H'. reflexivity.
Defined.

(* ================================================================== *)
(** ** The reply decoder: the deleted flag *)
(* ================================================================== *)







(* ================================================================== *)
(** ** The reply decoder: statistics *)
(* ================================================================== *)

Lemma print_stat_lluint host stb idx key fmt :
  filter is_print_lluint (print_stat host stb idx key fmt)
  = print_stat host stb idx key fmt.
Proof.
  unfold print_stat. destruct (stb idx); reflexivity.
Qed.

Lemma print_vnifilter_entry_stats_counters host stats_attr :
  filter is_print_lluint (print_vnifilter_entry_stats host stats_attr)
  = flat_map
      (fun '(idx, key, fmt) =>
         print_stat host
           (parse_rtattr_flags VNIFILTER_ENTRY_STATS_MAX
                               (rta_nested stats_attr) NLA_F_NESTED)
           idx key fmt)
      stat_counters.
Proof.
  unfold print_vnifilter_entry_stats, stat_counters.
  rewrite !filter_app, !print_stat_lluint.
  cbn [flat_map filter is_print_lluint app]. rewrite app_nil_r.
  reflexivity.
Qed.

Lemma in_print_stat host stb idx key fmt c :
  In c (print_stat host stb idx key fmt) <->
  exists a, stb idx = Some a
            /\ c = print_lluint PRINT_ANY (Some key) fmt
                                (rta_getattr_u64 host a).
Proof.
  unfold print_stat. destruct (stb idx) as [a|]; cbn [In]; split.
  - intros [H|[]]. exists a. auto.
  - intros [a' [[= <-] ->]]. auto.
  - intros [].
  - intros [a' [H _]]. discriminate H.
Qed.

(** C9.  In what is printed for a statistics block, the counters are
    exactly those of the eight counter attributes that are in the block,
    each with the value of its attribute; a counter whose attribute is not
    in the block is not printed, with no value at all, whatever the other
    attributes are. *)
Theorem absent_counters_are_not_printed host stats_attr :
  let stb :=
    parse_rtattr_flags VNIFILTER_ENTRY_STATS_MAX (rta_nested stats_attr)
                       NLA_F_NESTED in
  let calls := print_vnifilter_entry_stats host stats_attr in
  (forall t k f v,
      In (print_lluint t k f v) calls <->
      exists idx key fmt a,
        In (idx, key, fmt) stat_counters
        /\ stb idx = Some a
        /\ t = PRINT_ANY /\ k = Some key /\ f = fmt
        /\ v = rta_getattr_u64 host a)
  /\ (forall idx key fmt,
         In (idx, key, fmt) stat_counters ->
         stb idx = None ->
         forall t f v, ~ In (print_lluint t (Some key) f v) calls).
Proof.
  intros stb calls.
  assert (A : forall t k f v,
             In (print_lluint t k f v) calls <->
             exists idx key fmt a,
               In (idx, key, fmt) stat_counters
               /\ stb idx = Some a
               /\ t = PRINT_ANY /\ k = Some key /\ f = fmt
               /\ v = rta_getattr_u64 host a).
  { intros t k f v.
    assert (F : In (print_lluint t k f v) calls <->
                In (print_lluint t k f v) (filter is_print_lluint calls)).
    { rewrite filter_In. cbn [is_print_lluint]. tauto. }
    rewrite F. subst calls.
    rewrite print_vnifilter_entry_stats_counters, in_flat_map. split.
    - intros [[[idx key] fmt] [Hin Hc]].
      apply in_print_stat in Hc as [a [Ha [= -> -> -> ->]]].
      exists idx, key, fmt, a. auto 10.
    - intros [idx [key [fmt [a [Hin [Ha [-> [-> [-> ->]]]]]]]]].
      exists (idx, key, fmt). split; [exact Hin|].
      apply in_print_stat. exists a. auto. }
  split; [exact A|].
  intros idx key fmt Hin Hnone t f v Hc.
  apply A in Hc as [idx' [key' [fmt' [a [Hin' [Ha [_ [Hk _]]]]]]]].
  injection Hk as <-.
  assert (idx' = idx).
  { clear - Hin Hin'. unfold stat_counters in *. cbn [In] in *.
    repeat match goal with
           | H : _ \/ _ |- _ => destruct H as [H|H]
           | H : False |- _ => destruct H
           end;
      congruence. }
  subst idx'. fold stb in Ha. congruence.
Qed.

Lemma absent_counters_are_not_printed_witness :
  let block :=
    mk_rtattr VXLAN_VNIFILTER_ENTRY_STATS []
      [mk_rtattr VNIFILTER_ENTRY_STATS_RX_PKTS
                 [x07; x00; x00; x00; x00; x00; x00; x00] []] in
  In (VNIFILTER_ENTRY_STATS_RX_BYTES, "rx_bytes", "bytes %llu ")
     stat_counters
  /\ parse_rtattr_flags VNIFILTER_ENTRY_STATS_MAX (rta_nested block)
                        NLA_F_NESTED VNIFILTER_ENTRY_STATS_RX_BYTES = None
  /\ ~ In (print_lluint PRINT_ANY (Some "rx_bytes") "bytes %llu " 0)
          (print_vnifilter_entry_stats LittleEndian block).
Proof.
  cbv zeta. split; [left; reflexivity|]. split; [reflexivity|].
  apply (proj2 (absent_counters_are_not_printed LittleEndian _)
               VNIFILTER_ENTRY_STATS_RX_BYTES "rx_bytes" "bytes %llu ");
    [left; reflexivity|reflexivity].
Defined.

(* ================================================================== *)
(** ** The reply decoder: IPv4 before IPv6 *)
(* ================================================================== *)

Lemma parse_rtattr_flags_without_group6 max rta i :
  i <> VXLAN_VNIFILTER_ENTRY_GROUP6 ->
  parse_rtattr_flags max
    (filter (fun a =>
               negb (Z.land (rta_type a) (Z.lnot NLA_F_NESTED)
                     =? VXLAN_VNIFILTER_ENTRY_GROUP6)) rta)
    NLA_F_NESTED i
  = parse_rtattr_flags max rta NLA_F_NESTED i.
Proof.
  intros Hi. unfold parse_rtattr_flags.
  destruct ((0 <=? i) && (i <=? max)); [|reflexivity].
  induction rta as [|a rta IH]; cbn [filter find]; [reflexivity|].
  destruct (Z.land (rta_type a) (Z.lnot NLA_F_NESTED)
            =? VXLAN_VNIFILTER_ENTRY_GROUP6) eqn:E; cbn [negb find].
  - apply Z.eqb_eq in E. rewrite E.
    assert (E' : (VXLAN_VNIFILTER_ENTRY_GROUP6 =? i) = false)
      by (apply Z.eqb_neq; congruence).
    rewrite E'. exact IH.
  - destruct (Z.land (rta_type a) (Z.lnot NLA_F_NESTED) =? i);
      [reflexivity|exact IH].
Qed.

(** C10.  When an entry block has an IPv4 endpoint child, its IPv6
    endpoint children change nothing in what is printed: the output is that
    of the block without them, and the endpoint printed is the IPv4 one
    alone. *)
Theorem ipv4_endpoint_takes_precedence host t ifindex a :
  parse_rtattr_flags VXLAN_VNIFILTER_ENTRY_MAX (rta_nested t) NLA_F_NESTED
                     VXLAN_VNIFILTER_ENTRY_GROUP = Some a ->
  print_vni host t ifindex = print_vni host (without_group6 t) ifindex
  /\ print_vni_endpoint host
       (parse_rtattr_flags VXLAN_VNIFILTER_ENTRY_MAX (rta_nested t)
                           NLA_F_NESTED)
     = endpoint_calls AF_INET 4 (load 4 (rta_data a))
                      (classify ipv4_multicast (load 4 (rta_data a))).
Proof.
  intros H. split; [|apply print_vni_endpoint_ipv4; exact H].
  unfold print_vni, without_group6; cbn [rta_nested].
  rewrite !parse_rtattr_flags_without_group6 by discriminate.
  f_equal. f_equal.
  unfold print_vni_endpoint.
  rewrite parse_rtattr_flags_without_group6 by discriminate.
  rewrite H. reflexivity.
Qed.

Lemma ipv4_endpoint_takes_precedence_witness :
  let v4 := mk_rtattr VXLAN_VNIFILTER_ENTRY_GROUP [xef; x01; x01; x01] [] in
  let v6 :=
    mk_rtattr VXLAN_VNIFILTER_ENTRY_GROUP6
              [xff; x02; x00; x00; x00; x00; x00; x00;
               x00; x00; x00; x00; x00; x00; x00; x01] [] in
  let start := mk_rtattr VXLAN_VNIFILTER_ENTRY_START [x07; x00; x00; x00] [] in
  let t := mk_rtattr VXLAN_VNIFILTER_ENTRY [] [start; v6; v4] in
  parse_rtattr_flags VXLAN_VNIFILTER_ENTRY_MAX (rta_nested t) NLA_F_NESTED
                     VXLAN_VNIFILTER_ENTRY_GROUP = Some v4
  /\ print_vni LittleEndian t 3
     = print_vni LittleEndian (without_group6 t) 3.
Proof.
  cbv zeta. split; [reflexivity|].
  exact (proj1
           (ipv4_endpoint_takes_precedence LittleEndian
              (mk_rtattr VXLAN_VNIFILTER_ENTRY []
                 [ mk_rtattr VXLAN_VNIFILTER_ENTRY_START
                             [x07; x00; x00; x00] [];
                   mk_rtattr VXLAN_VNIFILTER_ENTRY_GROUP6
                             [xff; x02; x00; x00; x00; x00; x00; x00;
                              x00; x00; x00; x00; x00; x00; x00; x01] [];
                   mk_rtattr VXLAN_VNIFILTER_ENTRY_GROUP
                             [xef; x01; x01; x01] [] ])
              3
              (mk_rtattr VXLAN_VNIFILTER_ENTRY_GROUP [xef; x01; x01; x01] [])
              eq_refl)).
Defined.

(* ================================================================== *)
(** ** parse_vni_filter on any string *)
(* ================================================================== *)

Lemma fields_strchr_some c s pre post :
  strchr s c = Some (pre, post) -> fields c s = pre :: fields c post.
Proof.
  revert pre post. induction s as [|a r IH]; cbn [strchr fields];
    intros pre post H.
  - discriminate.
  - destruct (Ascii.eqb a c).
    + injection H as <- <-. reflexivity.
    + destruct (strchr r c) as [[p q]|]; [|discriminate].
      injection H as <- <-. rewrite (IH _ _ eq_refl). reflexivity.
Qed.

Lemma fields_strchr_none c s : strchr s c = None -> fields c s = [s].
Proof.
  induction s as [|a r IH]; cbn [strchr fields]; intros H.
  - reflexivity.
  - destruct (Ascii.eqb a c); [discriminate|].
    destruct (strchr r c) as [[p q]|]; [discriminate|].
    rewrite (IH eq_refl). reflexivity.
Qed.

Lemma tokens_skip_delim c s : tokens c (skip_delim s c) = tokens c s.
Proof.
  unfold tokens. induction s as [|a r IH]; cbn [skip_delim]; [reflexivity|].
  destruct (Ascii.eqb a c) eqn:E; [|reflexivity].
  rewrite IH. cbn [fields]. rewrite E. reflexivity.
Qed.

(** [strtok] gives the first token and leaves the others. *)
Lemma strtok_tokens c s :
  match strtok s c with
  | None => tokens c s = []
  | Some (tok, rest) => tokens c s = tok :: tokens c rest
  end.
Proof.
  unfold strtok. rewrite <- (tokens_skip_delim c s).
  assert (Hd : match skip_delim s c with
               | [] => True
               | a :: _ => Ascii.eqb a c = false
               end).
  { induction s as [|a r IH]; cbn [skip_delim]; [exact I|].
    destruct (Ascii.eqb a c) eqn:E; [exact IH|exact E]. }
  destruct (skip_delim s c) as [|a r]; [reflexivity|].
  destruct (strchr (a :: r) c) as [[p q]|] eqn:E.
  - unfold tokens. rewrite (fields_strchr_some c _ _ _ E). cbn [filter].
    cbn [strchr] in E. rewrite Hd in E.
    destruct (strchr r c) as [[p' q']|]; [|discriminate].
    injection E as <- <-. reflexivity.
  - unfold tokens. rewrite (fields_strchr_none c _ E). reflexivity.
Qed.

Lemma add_vni_entry_header host nb n reqsize vs ve group gt :
  add_vni_entry host nb n reqsize vs ve group gt
  = with_attrs n (req_attrs (add_vni_entry host nb n reqsize vs ve group gt)).
Proof.
  unfold add_vni_entry, addattr_nest, addattr32, addattr_nest_end.
  destruct n as [ty fl tm at0]. unfold addattr_l, with_attrs; cbn.
  destruct (negb (ve =? 0)), group as [g|]; cbn;
    match goal with
    | |- context [nth_error ?l ?k] => destruct (nth_error l k)
    end; reflexivity.
Qed.

Lemma vni_loop_blocks host nb reqsize group olds :
  forall n,
    vni_loop host nb reqsize group (vni_group_type group) olds n
    = with_attrs n
        (req_attrs n
           ++ map (fun t => entry_block host nb group (parse_vni_token t))
                  (tokens "," olds)).
Proof.
  remember (length olds) as k eqn:Hk. revert olds Hk.
  induction k as [k IH] using lt_wf_ind. intros olds Hk n.
  rewrite vni_loop_eq. pose proof (strtok_tokens "," olds) as Ht.
  destruct (strtok olds ",") as [[tok rest]|] eqn:E.
  - rewrite Ht. cbn [map]. apply strtok_length in E.
    destruct (parse_vni_token tok) as [vs ve] eqn:Ep.
    rewrite (IH (length rest) ltac:(lia) rest eq_refl).
    rewrite add_vni_entry_header at 1.
    rewrite add_vni_entry_attrs. unfold with_attrs; cbn [req_nlmsg_type
      req_nlmsg_flags req_tmsg req_attrs].
    rewrite <- app_assoc. reflexivity.
  - rewrite Ht. cbn [map]. rewrite app_nil_r. destruct n; reflexivity.
Qed.





(* ================================================================== *)
(** ** Encoding an entry and printing it back *)
(* ================================================================== *)

(** The table [print_vni] builds from the children of an encoded entry. *)
Lemma entry_children_table host vs ve group :
  let ttb :=
    parse_rtattr_flags VXLAN_VNIFILTER_ENTRY_MAX
      (entry_children host vs ve group (vni_group_type group)) NLA_F_NESTED in
  ttb VXLAN_VNIFILTER_ENTRY_START
  = Some (attr32 host VXLAN_VNIFILTER_ENTRY_START vs)
  /\ ttb VXLAN_VNIFILTER_ENTRY_END
     = (if ve =? 0 then None
        else Some (attr32 host VXLAN_VNIFILTER_ENTRY_END ve))
  /\ ttb VXLAN_VNIFILTER_ENTRY_STATS = None
  /\ ttb VXLAN_VNIFILTER_ENTRY_GROUP
     = match group with
       | Some g =>
           if vni_group_type group =? VXLAN_VNIFILTER_ENTRY_GROUP
           then Some (mk_rtattr VXLAN_VNIFILTER_ENTRY_GROUP
                                (endpoint_bytes g) [])
           else None
       | None => None
       end
  /\ ttb VXLAN_VNIFILTER_ENTRY_GROUP6
     = match group with
       | Some g =>
           if vni_group_type group =? VXLAN_VNIFILTER_ENTRY_GROUP6
           then Some (mk_rtattr VXLAN_VNIFILTER_ENTRY_GROUP6
                                (endpoint_bytes g) [])
           else None
       | None => None
       end.
Proof.
  cbv zeta. unfold entry_children, endpoint_bytes.
  destruct (vni_group_type_cases group) as [E|[E|E]]; rewrite E; clear E;
    destruct (ve =? 0), group as [g|];
    cbn [parse_rtattr_flags find app attr32 rta_type andb
         Z.leb Z.eqb Z.compare Pos.compare Pos.compare_cont
         VXLAN_VNIFILTER_ENTRY_START VXLAN_VNIFILTER_ENTRY_END
         VXLAN_VNIFILTER_ENTRY_GROUP VXLAN_VNIFILTER_ENTRY_GROUP6
         VXLAN_VNIFILTER_ENTRY_STATS VXLAN_VNIFILTER_ENTRY_MAX AF_UNSPEC];
    decide_types; repeat split; reflexivity.
Qed.

Lemma getattr_attr32 host type v :
  0 <= v < 2 ^ 32 -> rta_getattr_u32 host (attr32 host type v) = v.
Proof.
  intros H. unfold rta_getattr_u32, attr32; cbn [rta_data].
  rewrite u32_getattr_of_encode. apply Z.mod_small. exact H.
Qed.

Lemma print_vni_entry_block host nest_bytes group p ifindex :
  0 <= fst p < 2 ^ 32 ->
  0 <= snd p < 2 ^ 32 ->
  print_vni host (entry_block host nest_bytes group p) ifindex
  = vni_calls (fst p) (snd p)
      ++ endpoint_shown group
      ++ [close_json_object; print_string PRINT_FP None "%s" _SL_].
Proof.
  destruct p as [vs ve]. cbn [fst snd]. intros Hs He.
  unfold print_vni, entry_block; cbn [rta_nested fst snd]; cbv zeta.
  pose proof (entry_children_table host vs ve group) as T. cbv zeta in T.
  destruct T as [Tstart [Tend [Tstats [T4 T6]]]].
  rewrite Tstart, Tend, Tstats. cbn [app].
  rewrite (getattr_attr32 host _ vs Hs).
  assert (Ep : print_vni_endpoint host
                 (parse_rtattr_flags VXLAN_VNIFILTER_ENTRY_MAX
                    (entry_children host vs ve group (vni_group_type group))
                    NLA_F_NESTED)
               = endpoint_shown group).
  { unfold endpoint_shown. destruct group as [g|].
    - cbn [vni_group_type] in *.
      destruct (is_addrtype_inet g).
      + destruct (family g =? AF_INET).
        * rewrite (print_vni_endpoint_ipv4 host _ _ T4). reflexivity.
        * rewrite (print_vni_endpoint_ipv6 host _ _ T4 T6). reflexivity.
      + unfold print_vni_endpoint. rewrite T4, T6. reflexivity.
    - unfold print_vni_endpoint. rewrite T4, T6. reflexivity. }
  rewrite Ep. f_equal. unfold vni_calls.
  destruct (ve =? 0) eqn:Z0; [reflexivity|].
  rewrite (getattr_attr32 host _ ve He), Z0. cbn [negb].
  unfold print_range. destruct (vs =? ve); reflexivity.
Qed.


(** X3.  An entry encoded from a range of 32-bit bounds and an endpoint
    prints back as follows: the start alone when the end is 0 or equals the
    start, the start and the end otherwise; then the endpoint, as group or
    remote by its bytes when it is an inet address, and not at all when it
    is not (it was written under the attribute type 0). *)
Theorem encoded_entry_prints_back host nest_bytes group p ifindex :
  0 <= fst p < 2 ^ 32 ->
  0 <= snd p < 2 ^ 32 ->
  print_vni host (entry_block host nest_bytes group p) ifindex
  = vni_calls (fst p) (snd p)
      ++ endpoint_shown group
      ++ [close_json_object; print_string PRINT_FP None "%s" _SL_].
Proof.
  apply print_vni_entry_block.
Qed.

Lemma encoded_entry_prints_back_witness :
  0 <= fst (7, 7) < 2 ^ 32
  /\ 0 <= snd (7, 7) < 2 ^ 32
  /\ print_vni BigEndian (entry_block BigEndian no_image None (7, 7)) 3
     = [ print_uint PRINT_ANY (Some "vni") " %u" 7;
         close_json_object; print_string PRINT_FP None "%s" _SL_ ].
Proof.
  split; [cbn; lia|]. split; [cbn; lia|].
  apply (encoded_entry_prints_back BigEndian no_image None (7, 7) 3);
    cbn; lia.
Defined.

(* ================================================================== *)
(** ** The decoder and what it does not look at *)
(* ================================================================== *)





Lemma rtm_entries_later host rta ifindex :
  rtm_entries host rta false ifindex
  = flat_map (later_entry host ifindex) (filter is_entry_attr rta).
Proof.
  induction rta as [|t rta IH]; cbn [rtm_entries filter]; [reflexivity|].
  fold (is_entry_attr t). destruct (is_entry_attr t); cbn [negb flat_map].
  - rewrite IH. unfold later_entry. rewrite <- !app_assoc. reflexivity.
  - exact IH.
Qed.

Lemma rtm_entries_first host rta ifindex :
  rtm_entries host rta true ifindex
  = match filter is_entry_attr rta with
    | [] => []
    | t :: ts =>
        open_vni_port ifindex "%s" ++ [open_json_object None]
          ++ print_vni host t ifindex
          ++ flat_map (later_entry host ifindex) ts
    end.
Proof.
  induction rta as [|t rta IH]; cbn [rtm_entries filter]; [reflexivity|].
  fold (is_entry_attr t). destruct (is_entry_attr t); cbn [negb].
  - rewrite rtm_entries_later, <- !app_assoc. reflexivity.
  - exact IH.
Qed.

(** X5.  For a message it accepts the decoder prints the header, the
    deleted flag of a delete message, then, for the attributes that are
    entries and for these only, the interface name once, before the first
    entry, and each entry in the order of the message, and at last the
    closing calls; attributes of any other type are stepped over. *)
Theorem accepted_message_output host filter_index n :
  accepted filter_index n = true ->
  out (print_vnifilter_rtm host filter_index n)
  = print_headers "[TUNNEL]"
      :: (if nlmsg_type n =? RTM_DELTUNNEL
          then [print_bool PRINT_ANY (Some "deleted") "Deleted " true]
          else [])
      ++ match filter is_entry_attr (tunnel_rta n) with
         | [] => []
         | t :: ts =>
             open_vni_port (tm_ifindex (tmsg n)) "%s"
               ++ [open_json_object None]
               ++ print_vni host t (tm_ifindex (tmsg n))
               ++ flat_map (later_entry host (tm_ifindex (tmsg n))) ts
         end
      ++ close_vni_port
      ++ [print_string PRINT_FP None "%s" _SL_; fflush_stdout].
Proof.
  intros H. rewrite (print_vnifilter_rtm_accepted host filter_index n H).
  cbn [out]. rewrite rtm_entries_first. reflexivity.
Qed.

Lemma accepted_message_output_witness :
  let n :=
    mk_nlmsghdr 32 RTM_NEWTUNNEL 0 (mk_tunnel_msg AF_BRIDGE 3)
                [mk_rtattr 9 [] []] in
  accepted 0 n = true
  /\ out (print_vnifilter_rtm LittleEndian 0 n)
     = [ print_headers "[TUNNEL]";
         close_json_array PRINT_JSON None; close_json_object;
         print_string PRINT_FP None "%s" _SL_; fflush_stdout ].
Proof.
  cbv zeta. split; [reflexivity|].
  exact (accepted_message_output LittleEndian 0
           (mk_nlmsghdr 32 RTM_NEWTUNNEL 0 (mk_tunnel_msg AF_BRIDGE 3)
                        [mk_rtattr 9 [] []])
           eq_refl).
Defined.

Lemma json_depth_app l1 l2 :
  json_depth (l1 ++ l2) = json_depth l1 + json_depth l2.
Proof.
  unfold json_depth. induction l1 as [|c l1 IH]; cbn [app fold_right].
  - reflexivity.
  - rewrite IH. lia.
Qed.

Lemma json_depth_stats host a :
  json_depth (print_vnifilter_entry_stats host a) = 0.
Proof.
  unfold print_vnifilter_entry_stats, print_stat.
  rewrite !json_depth_app.
  repeat match goal with
         | |- context [match ?o with Some _ => _ | None => _ end] =>
             destruct o
         end; reflexivity.
Qed.

Lemma json_depth_print_vni host t ifindex :
  json_depth (print_vni host t ifindex) = -1.
Proof.
  unfold print_vni. cbv zeta. rewrite !json_depth_app.
  assert (E : forall ttb, json_depth (print_vni_endpoint host ttb) = 0).
  { intros ttb. unfold print_vni_endpoint. split_cases; reflexivity. }
  rewrite E.
  assert (S : forall o : option rtattr,
             json_depth
               match o with
               | Some a => print_vnifilter_entry_stats host a
               | None => []
               end = 0).
  { intros [a|]; [apply json_depth_stats|reflexivity]. }
  rewrite S. unfold print_range.
  destruct (negb (_ =? 0)); [|reflexivity].
  destruct (negb (_ =? _)); reflexivity.
Qed.

Lemma json_depth_later host ifindex ts :
  json_depth (flat_map (later_entry host ifindex) ts) = 0.
Proof.
  induction ts as [|t ts IH]; [reflexivity|].
  change (flat_map (later_entry host ifindex) (t :: ts))
    with (later_entry host ifindex t
            ++ flat_map (later_entry host ifindex) ts).
  unfold later_entry at 1.
  rewrite !json_depth_app, json_depth_print_vni, IH. reflexivity.
Qed.

Lemma count_ifname_print_vni host t ifindex :
  existsb is_ifname (print_vni host t ifindex) = false.
Proof.
  unfold print_vni. cbv zeta. rewrite !existsb_app.
  assert (E : forall ttb, existsb is_ifname (print_vni_endpoint host ttb)
                          = false).
  { intros ttb. unfold print_vni_endpoint. split_cases; reflexivity. }
  rewrite E.
  assert (S : forall o : option rtattr,
             existsb is_ifname
               match o with
               | Some a => print_vnifilter_entry_stats host a
               | None => []
               end = false).
  { intros [a|]; [|reflexivity].
    unfold print_vnifilter_entry_stats, print_stat. rewrite !existsb_app.
    repeat match goal with
           | |- context [match ?o with Some _ => _ | None => _ end] =>
               destruct o
           end; reflexivity. }
  rewrite S. unfold print_range.
  destruct (negb (_ =? 0)); [|reflexivity].
  destruct (negb (_ =? _)); reflexivity.
Qed.

Lemma filter_ifname_later host ifindex ts :
  filter is_ifname (flat_map (later_entry host ifindex) ts) = [].
Proof.
  induction ts as [|t ts IH]; [reflexivity|].
  change (flat_map (later_entry host ifindex) (t :: ts))
    with (later_entry host ifindex t
            ++ flat_map (later_entry host ifindex) ts).
  unfold later_entry at 1. rewrite !filter_app, IH.
  assert (E : filter is_ifname (print_vni host t ifindex) = []).
  { pose proof (count_ifname_print_vni host t ifindex) as H.
    induction (print_vni host t ifindex) as [|c l IHl]; [reflexivity|].
    cbn [existsb filter] in *. apply orb_false_iff in H as [-> H]. auto. }
  rewrite E. reflexivity.
Qed.

(** X6.  What the decoder prints for a message it accepts names the
    interface once when the message has an entry and never when it has
    none; and it closes as many JSON objects and arrays as it opens when the
    message has an entry, but two more than it opens when it has none: the
    port is closed without having been opened. *)
Theorem port_is_opened_once_and_closed_always host filter_index n :
  accepted filter_index n = true ->
  let calls := out (print_vnifilter_rtm host filter_index n) in
  let has_entry := existsb is_entry_attr (tunnel_rta n) in
  filter is_ifname calls
  = (if has_entry
     then [print_color_string PRINT_ANY COLOR_IFNAME (Some "ifname")
                              "%-16s  "
                              (ll_index_to_name (tm_ifindex (tmsg n)))]
     else [])
  /\ json_depth calls = (if has_entry then 0 else -2).
Proof.
  intros H calls has_entry. subst calls has_entry.
  rewrite (print_vnifilter_rtm_accepted host filter_index n H). cbn [out].
  rewrite rtm_entries_first.
  assert (X : existsb is_entry_attr (tunnel_rta n)
              = match filter is_entry_attr (tunnel_rta n) with
                | [] => false
                | _ :: _ => true
                end).
  { induction (tunnel_rta n) as [|a l IH]; cbn [existsb filter];
      [reflexivity|].
    destruct (is_entry_attr a); [reflexivity|exact IH]. }
  rewrite X. clear X.
  destruct (filter is_entry_attr (tunnel_rta n)) as [|t ts]; split.
  - destruct (nlmsg_type n =? RTM_DELTUNNEL); reflexivity.
  - destruct (nlmsg_type n =? RTM_DELTUNNEL); reflexivity.
  - change (print_headers "[TUNNEL]" :: ?l) with ([print_headers "[TUNNEL]"] ++ l).
    rewrite !filter_app, filter_ifname_later.
    assert (E : filter is_ifname (print_vni host t (tm_ifindex (tmsg n))) = []).
    { pose proof (count_ifname_print_vni host t (tm_ifindex (tmsg n))) as Hc.
      induction (print_vni host t (tm_ifindex (tmsg n))) as [|c l IHl];
        [reflexivity|].
      cbn [existsb filter] in *. apply orb_false_iff in Hc as [-> Hc]. auto. }
    rewrite E. destruct (nlmsg_type n =? RTM_DELTUNNEL); reflexivity.
  - change (print_headers "[TUNNEL]" :: ?l) with ([print_headers "[TUNNEL]"] ++ l).
    rewrite !json_depth_app, json_depth_print_vni, json_depth_later.
    destruct (nlmsg_type n =? RTM_DELTUNNEL); reflexivity.
Qed.

Lemma port_is_opened_once_and_closed_always_witness :
  let n := mk_nlmsghdr 24 RTM_NEWTUNNEL 0 (mk_tunnel_msg AF_BRIDGE 3) [] in
  accepted 0 n = true
  /\ json_depth (out (print_vnifilter_rtm LittleEndian 0 n)) = -2.
Proof.
  cbv zeta. split; [reflexivity|].
  exact (proj2
           (port_is_opened_once_and_closed_always LittleEndian 0
              (mk_nlmsghdr 24 RTM_NEWTUNNEL 0 (mk_tunnel_msg AF_BRIDGE 3) [])
              eq_refl)).
Defined.

(** X7.  [print_vnifilter_rtm] returns 0 or -1; it returns -1 exactly for a
    message of one of the three tunnel kinds whose length, less the two
    headers, is negative as an [int]; it prints something exactly for the
    messages that pass its four tests, and so nothing when it fails; and
    it writes to stderr exactly when the kind is unknown or it fails. *)
Theorem decoder_result_by_message host filter_index n :
  let r := print_vnifilter_rtm host filter_index n in
  (ret r = 0 \/ ret r = -1)
  /\ (ret r = -1 <->
      is_tunnel_kind (nlmsg_type n) = true /\ payload_len n < 0)
  /\ (out r <> [] <-> accepted filter_index n = true)
  /\ (err r <> [] <->
      is_tunnel_kind (nlmsg_type n) = false \/ payload_len n < 0).
Proof.
  cbv zeta. rewrite print_vnifilter_rtm_len.
  destruct (is_tunnel_kind (nlmsg_type n)) eqn:K; cbn [negb].
  - destruct (Z.ltb_spec (payload_len n) 0) as [L|L].
    + assert (A : accepted filter_index n = false).
      { unfold accepted. rewrite K.
        assert (E : (0 <=? payload_len n) = false) by (apply Z.leb_gt; lia).
        rewrite E. reflexivity. }
      cbn [ret out err]. repeat split; auto; try congruence; try lia;
        intros; try discriminate; intuition congruence.
    + destruct (accepted filter_index n) eqn:A; cbn [negb ret out err];
        repeat split; auto; try congruence; try discriminate;
        intros; try lia; intuition (try congruence; try lia).
  - assert (A : accepted filter_index n = false)
      by (unfold accepted; rewrite K; reflexivity).
    cbn [ret out err]. repeat split; auto; try discriminate;
      intros; intuition (try congruence; try lia; try discriminate).
Qed.

(* ================================================================== *)
(** ** vni_modify: from the options to the request *)
(* ================================================================== *)

Lemma last_cons_default {A} (a : A) l dflt : last (a :: l) dflt = last l a.
Proof.
  revert a dflt. induction l as [|b l IH]; intros a dflt; [reflexivity|].
  change (last (a :: b :: l) dflt) with (last (b :: l) dflt).
  rewrite (IH b dflt), (IH b a). reflexivity.
Qed.


Section ModifyOptions.

Variable get_addr : string -> option inet_prefix.

(** The device is the value of the last [dev] option. *)
Lemma modify_args_dev argv :
  forall l l',
    modify_args get_addr argv l = inr l' ->
    d l' = last (map Some (values "dev" argv)) (d l).
Proof.
  induction argv as [|w rest IH1 IH2] using argv_ind; intros l l';
    cbn [modify_args].
  - intros [= <-]. reflexivity.
  - destruct (String.eqb w "dev") eqn:Edev.
    { destruct rest as [|v rest']; [discriminate|].
      intros H. apply (IH2 v rest' eq_refl) in H. cbn [d] in H.
      known_word Edev w. rewrite last_cons_default. exact H. }
    destruct (String.eqb w "vni") eqn:Evni.
    { destruct rest as [|v rest']; [discriminate|].
      destruct (vni l); [discriminate|].
      intros H. apply (IH2 v rest' eq_refl) in H. cbn [d] in H.
      known_word Evni w. exact H. }
    destruct (String.eqb w "group") eqn:Egroup.
    { destruct (group_present l); [discriminate|].
      destruct (is_addrtype_inet_not_multi (daddr l)); [discriminate|].
      destruct rest as [|v rest']; [discriminate|].
      destruct (get_addr v) as [addr|]; [|discriminate].
      destruct (negb (is_addrtype_inet_multi addr)); [discriminate|].
      intros H. apply (IH2 v rest' eq_refl) in H. cbn [d] in H.
      known_word Egroup w. exact H. }
    destruct (String.eqb w "remote") eqn:Eremote.
    { destruct (group_present l); [discriminate|].
      destruct rest as [|v rest']; [discriminate|].
      destruct (get_addr v) as [addr|]; [|discriminate].
      intros H. apply (IH2 v rest' eq_refl) in H. cbn [d] in H.
      known_word Eremote w. exact H. }
    destruct (String.eqb w "help"); [discriminate|].
    intros H. apply IH1 in H. other_word Edev Evni Egroup Eremote. exact H.
Qed.

(** The VNI is the value of the one [vni] option, if there is one. *)
Lemma modify_args_vni argv :
  forall l l',
    modify_args get_addr argv l = inr l' ->
    match vni l with
    | Some _ => values "vni" argv = [] /\ vni l' = vni l
    | None =>
        (values "vni" argv = [] /\ vni l' = None)
        \/ exists v, values "vni" argv = [v] /\ vni l' = Some v
    end.
Proof.
  induction argv as [|w rest IH1 IH2] using argv_ind; intros l l';
    cbn [modify_args].
  - intros [= <-]. destruct (vni l); auto.
  - destruct (String.eqb w "dev") eqn:Edev.
    { destruct rest as [|v rest']; [discriminate|].
      intros H. apply (IH2 v rest' eq_refl) in H. cbn [vni] in H.
      known_word Edev w. exact H. }
    destruct (String.eqb w "vni") eqn:Evni.
    { destruct rest as [|v rest']; [discriminate|].
      destruct (vni l) eqn:Ev; [discriminate|].
      intros H. apply (IH2 v rest' eq_refl) in H. cbn [vni] in H.
      known_word Evni w. destruct H as [H1 H2].
      right. exists v. fold (values "vni" rest'). rewrite H1. auto. }
    destruct (String.eqb w "group") eqn:Egroup.
    { destruct (group_present l); [discriminate|].
      destruct (is_addrtype_inet_not_multi (daddr l)); [discriminate|].
      destruct rest as [|v rest']; [discriminate|].
      destruct (get_addr v) as [addr|]; [|discriminate].
      destruct (negb (is_addrtype_inet_multi addr)); [discriminate|].
      intros H. apply (IH2 v rest' eq_refl) in H. cbn [vni] in H.
      known_word Egroup w. exact H. }
    destruct (String.eqb w "remote") eqn:Eremote.
    { destruct (group_present l); [discriminate|].
      destruct rest as [|v rest']; [discriminate|].
      destruct (get_addr v) as [addr|]; [|discriminate].
      intros H. apply (IH2 v rest' eq_refl) in H. cbn [vni] in H.
      known_word Eremote w. exact H. }
    destruct (String.eqb w "help"); [discriminate|].
    intros H. apply IH1 in H. other_word Edev Evni Egroup Eremote. exact H.
Qed.

(** The endpoint is the address of the one endpoint option, if there is
    one, and a group is a multicast address. *)
Lemma modify_args_endpoint argv :
  forall l l',
    modify_args get_addr argv l = inr l' ->
    if group_present l then
      endpoints argv = [] /\ group_present l' = true /\ daddr l' = daddr l
    else
      (endpoints argv = [] /\ group_present l' = false /\ daddr l' = daddr l)
      \/ exists k a,
          endpoints argv = [(k, a)]
          /\ group_present l' = true
          /\ get_addr a = Some (daddr l')
          /\ (k = "group" -> is_addrtype_inet_multi (daddr l') = true).
Proof.
  induction argv as [|w rest IH1 IH2] using argv_ind; intros l l';
    cbn [modify_args].
  - intros [= <-]. destruct (group_present l); auto.
  - destruct (String.eqb w "dev") eqn:Edev.
    { destruct rest as [|v rest']; [discriminate|].
      intros H. apply (IH2 v rest' eq_refl) in H.
      cbn [group_present daddr] in H. known_word Edev w. exact H. }
    destruct (String.eqb w "vni") eqn:Evni.
    { destruct rest as [|v rest']; [discriminate|].
      destruct (vni l); [discriminate|].
      intros H. apply (IH2 v rest' eq_refl) in H.
      cbn [group_present daddr] in H. known_word Evni w. exact H. }
    destruct (String.eqb w "group") eqn:Egroup.
    { destruct (group_present l); [discriminate|].
      destruct (is_addrtype_inet_not_multi (daddr l)); [discriminate|].
      destruct rest as [|v rest']; [discriminate|].
      destruct (get_addr v) as [addr|] eqn:Ea; [|discriminate].
      destruct (negb (is_addrtype_inet_multi addr)) eqn:Em; [discriminate|].
      intros H. apply (IH2 v rest' eq_refl) in H.
      cbn [group_present daddr] in H. destruct H as [H1 [H2 H3]].
      known_word Egroup w. right. exists "group", v.
      fold (endpoints rest'). rewrite H1, H2, H3, Ea.
      apply negb_false_iff in Em. auto. }
    destruct (String.eqb w "remote") eqn:Eremote.
    { destruct (group_present l); [discriminate|].
      destruct rest as [|v rest']; [discriminate|].
      destruct (get_addr v) as [addr|] eqn:Ea; [|discriminate].
      intros H. apply (IH2 v rest' eq_refl) in H.
      cbn [group_present daddr] in H. destruct H as [H1 [H2 H3]].
      known_word Eremote w. right. exists "remote", v.
      fold (endpoints rest'). rewrite H1, H2, H3, Ea.
      repeat split; auto. discriminate. }
    destruct (String.eqb w "help"); [discriminate|].
    intros H. apply IH1 in H. other_word Edev Evni Egroup Eremote. exact H.
Qed.

End ModifyOptions.


Lemma vni_modify_sent host nest_bytes get_addr ll_name_to_index rtnl_talk
      cmd argv daddr0 r :
  sent_request
    (vni_modify host nest_bytes get_addr ll_name_to_index rtnl_talk cmd argv
                daddr0) = Some r ->
  exists v dev ep,
    values "vni" argv = [v]
    /\ last (map Some (values "dev" argv)) None = Some dev
    /\ ll_name_to_index (Some dev) <> 0
    /\ endpoint_of get_addr argv ep
    /\ r = with_ifindex
             (snd (parse_vni_filter host nest_bytes v (empty_request cmd)
                     sizeof_req ep))
             (ll_name_to_index (Some dev))
    /\ succeeded
         (vni_modify host nest_bytes get_addr ll_name_to_index rtnl_talk cmd
                     argv daddr0)
       = negb (rtnl_talk r <? 0).
Proof.
  unfold vni_modify.
  destruct (modify_args get_addr argv (mk_locals false daddr0 None None))
    as [stop|l] eqn:E.
  { intros H. apply modify_args_stop in E.
    apply early_stop_fails in E as [E _]. congruence. }
  pose proof (modify_args_dev get_addr argv _ _ E) as Hd.
  pose proof (modify_args_vni get_addr argv _ _ E) as Hv.
  pose proof (modify_args_endpoint get_addr argv _ _ E) as He.
  cbn [d vni group_present daddr] in Hd, Hv, He.
  destruct (d l) as [dev|] eqn:Ed; [|discriminate].
  destruct Hv as [[_ Hv]|[v [Hv1 Hv2]]]; rewrite ?Hv, ?Hv2;
    cbn [is_null orb andb]; [discriminate|].
  fold (empty_request cmd).
  set (ep := if group_present l then Some (daddr l) else None).
  set (req := with_ifindex
                (snd (parse_vni_filter host nest_bytes v (empty_request cmd)
                        sizeof_req ep))
                (ll_name_to_index (Some dev))).
  assert (Hi : tm_ifindex (req_tmsg req) = ll_name_to_index (Some dev))
    by reflexivity.
  rewrite Hi.
  destruct (ll_name_to_index (Some dev) =? 0) eqn:Z0; [discriminate|].
  apply Z.eqb_neq in Z0.
  assert (Hep : endpoint_of get_addr argv ep).
  { unfold endpoint_of. subst ep.
    destruct He as [[-> [-> _]]|[k [a [-> [-> [Ha Hm]]]]]]; [reflexivity|].
    exists (daddr l). auto. }
  destruct (rtnl_talk req <? 0) eqn:T; cbn [sent_request succeeded];
    intros [= <-]; exists v, dev, ep; rewrite T; repeat split; auto.
Qed.

(** X8.  A request that [vni_modify] hands to [rtnl_talk] is built from
    the options alone: the argument list has exactly one [vni] option, whose
    value is parsed into the entries; the device is the value of its last
    [dev] option, and its index is not 0; it has at most one endpoint
    option, whose address goes into every entry, and a [group] address is
    multicast.  The call then succeeds exactly when [rtnl_talk] does not
    fail. *)
Theorem sent_request_is_built_from_the_options host nest_bytes get_addr
        ll_name_to_index rtnl_talk cmd argv daddr0 r :
  let o :=
    vni_modify host nest_bytes get_addr ll_name_to_index rtnl_talk cmd argv
               daddr0 in
  sent_request o = Some r ->
  exists v dev ep,
    values "vni" argv = [v]
    /\ last (map Some (values "dev" argv)) None = Some dev
    /\ ll_name_to_index (Some dev) <> 0
    /\ endpoint_of get_addr argv ep
    /\ r = with_ifindex
             (snd (parse_vni_filter host nest_bytes v (empty_request cmd)
                     sizeof_req ep))
             (ll_name_to_index (Some dev))
    /\ succeeded o = negb (rtnl_talk r <? 0).
Proof.
  intros o H. subst o. apply vni_modify_sent. exact H.
Qed.

Lemma sent_request_is_built_from_the_options_witness :
  let argv := ["dev"; "vxlan1"; "vni"; "100"; "dev"; "vxlan0"] in
  let r :=
    with_ifindex
      (snd (parse_vni_filter LittleEndian no_image "100"
              (empty_request RTM_NEWTUNNEL) sizeof_req None)) 4 in
  sent_request
    (vni_modify LittleEndian no_image (fun _ => None) (fun _ => 4)
                (fun _ => 0) RTM_NEWTUNNEL argv (mk_inet_prefix 0 0 0 0 []))
  = Some r
  /\ exists v dev ep,
      values "vni" argv = [v]
      /\ last (map Some (values "dev" argv)) None = Some dev
      /\ 4 <> 0
      /\ endpoint_of (fun _ => None) argv ep
      /\ r = with_ifindex
               (snd (parse_vni_filter LittleEndian no_image v
                       (empty_request RTM_NEWTUNNEL) sizeof_req ep)) 4
      /\ succeeded
           (vni_modify LittleEndian no_image (fun _ => None) (fun _ => 4)
                       (fun _ => 0) RTM_NEWTUNNEL argv
                       (mk_inet_prefix 0 0 0 0 []))
         = negb (0 <? 0).
Proof.
  cbv zeta. split; [reflexivity|].
  exact (sent_request_is_built_from_the_options LittleEndian no_image
           (fun _ => None) (fun _ => 4) (fun _ => 0) RTM_NEWTUNNEL
           ["dev"; "vxlan1"; "vni"; "100"; "dev"; "vxlan0"]
           (mk_inet_prefix 0 0 0 0 [])
           (with_ifindex
              (snd (parse_vni_filter LittleEndian no_image "100"
                      (empty_request RTM_NEWTUNNEL) sizeof_req None)) 4)
           eq_refl).
Defined.

(** X9.  An argument list with two [vni] options, or more, sends no
    request and fails. *)
Theorem second_vni_option_fails host nest_bytes get_addr ll_name_to_index
        rtnl_talk cmd argv daddr0 :
  (2 <= length (values "vni" argv))%nat ->
  let o :=
    vni_modify host nest_bytes get_addr ll_name_to_index rtnl_talk cmd argv
               daddr0 in
  sent_request o = None /\ succeeded o = false.
Proof.
  intros H o. subst o. unfold vni_modify.
  destruct (modify_args get_addr argv (mk_locals false daddr0 None None))
    as [stop|l] eqn:E.
  - apply modify_args_stop in E. apply early_stop_fails in E as [E1 [E2 _]].
    auto.
  - apply modify_args_vni in E. cbn [vni] in E.
    destruct E as [[E _]|[v [E _]]]; rewrite E in H; cbn in H; lia.
Qed.

Lemma second_vni_option_fails_witness :
  let argv := ["vni"; "100"; "dev"; "vxlan0"; "vni"; "200"] in
  (2 <= length (values "vni" argv))%nat
  /\ sent_request
       (vni_modify LittleEndian no_image (fun _ => None) (fun _ => 4)
                   (fun _ => 0) RTM_NEWTUNNEL argv
                   (mk_inet_prefix 0 0 0 0 []))
     = None.
Proof.
  cbv zeta. split; [cbn; lia|].
  exact (proj1
           (second_vni_option_fails LittleEndian no_image (fun _ => None)
              (fun _ => 4) (fun _ => 0) RTM_NEWTUNNEL
              ["vni"; "100"; "dev"; "vxlan0"; "vni"; "200"]
              (mk_inet_prefix 0 0 0 0 [])
              ltac:(cbn; lia))).
Defined.

(* ================================================================== *)
(** ** vni_show *)
(* ================================================================== *)

Lemma show_args_skip pre rest fd :
  no_dev_word pre = true -> show_args (pre ++ rest) fd = show_args rest fd.
Proof.
  unfold no_dev_word. induction pre as [|w pre IH]; cbn [forallb app];
    intros H; [reflexivity|].
  apply andb_true_iff in H as [Hw H]. apply negb_true_iff in Hw.
  cbn [show_args]. rewrite Hw. exact (IH H).
Qed.

Lemma show_args_none argv fd :
  no_dev_word argv = true -> show_args argv fd = inr fd.
Proof.
  intros H. rewrite <- (app_nil_r argv). rewrite (show_args_skip _ _ _ H).
  reflexivity.
Qed.

Lemma show_args_one pre name post :
  no_dev_word pre = true -> no_dev_word post = true ->
  show_args (pre ++ "dev" :: name :: post) None = inr (Some name).
Proof.
  intros Hpre Hpost. rewrite (show_args_skip _ _ _ Hpre).
  cbn [show_args String.eqb Ascii.eqb Bool.eqb andb].
  apply show_args_none. exact Hpost.
Qed.

Lemma printed_calls_app l1 l2 :
  printed_calls (l1 ++ l2) = printed_calls l1 ++ printed_calls l2.
Proof. apply flat_map_app. Qed.

Lemma printed_calls_map l : printed_calls (map printed l) = l.
Proof.
  unfold printed_calls. induction l as [|c l IH]; [reflexivity|].
  cbn [map flat_map app]. rewrite IH. reflexivity.
Qed.

Lemma delivered_incl filter msgs n :
  In n (delivered filter msgs) -> In n msgs.
Proof.
  induction msgs as [|m msgs IH]; cbn [delivered]; [auto|].
  destruct (ret (filter m) <? 0); cbn [In]; intuition auto.
Qed.

Section ShowFacts.

Variable host : byte_order.
Variable ll_name_to_index : option string -> Z.
Variable nodev : string -> Z.
Variable json : Z.
Variable show_stats : Z.
Variable is_json_context : bool.
Variable tunneldump_req_ret : Z -> Z -> Z -> Z.

Let show :=
  vni_show host ll_name_to_index nodev json show_stats is_json_context
           tunneldump_req_ret.

Let show_dump :=
  vni_show_dump host json show_stats is_json_context tunneldump_req_ret.

(** The decoder calls of a dump are those of the messages under the filter
    index. *)
Lemma vni_show_dump_calls fi msgs c :
  In c (printed_calls (show_events (show_dump fi msgs))) ->
  exists n,
    In n msgs
    /\ In c (out (print_vnifilter_rtm host fi n))
    /\ (fi <> 0 -> tm_ifindex (tmsg n) = fi).
Proof.
  subst show_dump. unfold vni_show_dump. cbv zeta.
  assert (D : forall c,
             In c (out (rtnl_dump_filter (print_vnifilter_rtm_filter host fi)
                                         msgs)) ->
             exists n,
               In n msgs
               /\ In c (out (print_vnifilter_rtm host fi n))
               /\ (fi <> 0 -> tm_ifindex (tmsg n) = fi)).
  { intros c0. rewrite rtnl_dump_filter_out, in_flat_map.
    intros [n [Hn Hc]]. exists n. split; [eapply delivered_incl; eauto|].
    split; [exact Hc|]. intros Hfi.
    destruct (Z.eq_dec (tm_ifindex (tmsg n)) fi) as [E|E]; [exact E|].
    unfold print_vnifilter_rtm_filter in Hc.
    rewrite (print_vnifilter_rtm_other_index host fi n Hfi E) in Hc.
    destruct Hc. }
  destruct (tunneldump_req_ret _ _ _ <? 0); cbn [show_events printed_calls];
    [cbn; intros []|].
  destruct (ret _ <? 0); cbn [show_events];
    rewrite !printed_calls_app, printed_calls_map;
    destruct (negb is_json_context); cbn [printed_calls flat_map app];
    rewrite ?app_nil_r; apply D.
Qed.

(** X10.  A show whose words have no [dev] among them is the show without
    any word: it leaves the global filter index as it found it and dumps
    under it, so that, when that index is not 0 (a show with [dev] came
    before), only the messages of that interface are decoded. *)
Theorem show_without_dev_keeps_the_filter fi argv msgs :
  no_dev_word argv = true ->
  show fi argv msgs = show fi [] msgs
  /\ show_filter_index (show fi argv msgs) = fi
  /\ forall c,
      In c (printed_calls (show_events (show fi argv msgs))) ->
      exists n,
        In n msgs
        /\ In c (out (print_vnifilter_rtm host fi n))
        /\ (fi <> 0 -> tm_ifindex (tmsg n) = fi).
Proof.
  intros H. subst show. unfold vni_show.
  rewrite (show_args_none argv None H). cbn [show_args].
  split; [reflexivity|]. split.
  - unfold vni_show_dump. cbv zeta.
    destruct (tunneldump_req_ret _ _ _ <? 0); [reflexivity|].
    destruct (ret _ <? 0); reflexivity.
  - intros c. apply vni_show_dump_calls.
Qed.

(** X11.  A show with one [dev] option, wherever it stands among other
    words, forgets the filter index it found: for a device that is not
    known it returns what [nodev] gives, requests and prints nothing, and
    leaves the filter index 0; for a known device it dumps under the index
    of the device and leaves that index behind. *)
Theorem show_with_dev_sets_the_filter fi pre name post msgs :
  no_dev_word pre = true ->
  no_dev_word post = true ->
  let r := show fi (pre ++ "dev" :: name :: post) msgs in
  (ll_name_to_index (Some name) = 0 ->
   r = mk_show_result (show_return (nodev name)) [] [] 0)
  /\ (ll_name_to_index (Some name) <> 0 ->
      r = show_dump (ll_name_to_index (Some name)) msgs
      /\ show_filter_index r = ll_name_to_index (Some name)).
Proof.
  intros Hpre Hpost r. subst r show show_dump. unfold vni_show.
  rewrite (show_args_one pre name post Hpre Hpost). split.
  - intros E. rewrite E. reflexivity.
  - intros E. apply Z.eqb_neq in E. rewrite E. split; [reflexivity|].
    unfold vni_show_dump. cbv zeta.
    destruct (tunneldump_req_ret _ _ _ <? 0); [reflexivity|].
    destruct (ret _ <? 0); reflexivity.
Qed.

(** X12.  A show stops before it requests anything, with exit status -1
    and the filter index untouched, when [dev] is its last word or when a
    second [dev] option follows the first. *)
Theorem show_argument_errors fi pre msgs :
  no_dev_word pre = true ->
  show fi (pre ++ ["dev"]) msgs
  = mk_show_result (show_exit (-1) show_incomplete_command) [] [] fi
  /\ forall a mid b post,
      no_dev_word mid = true ->
      show fi (pre ++ "dev" :: a :: mid ++ "dev" :: b :: post) msgs
      = mk_show_result (show_exit (-1) (duparg "dev" b)) [] [] fi.
Proof.
  intros Hpre. subst show. unfold vni_show. split.
  - rewrite (show_args_skip _ _ _ Hpre). reflexivity.
  - intros a mid b post Hmid. rewrite (show_args_skip _ _ _ Hpre).
    cbn [show_args String.eqb Ascii.eqb Bool.eqb andb].
    rewrite (show_args_skip _ _ _ Hmid). reflexivity.
Qed.

Lemma rtnl_dump_filter_stops filter pre bad post :
  Forall (fun n => ret (filter n) = 0) pre ->
  ret (filter bad) < 0 ->
  ret (rtnl_dump_filter filter (pre ++ bad :: post)) = ret (filter bad)
  /\ out (rtnl_dump_filter filter (pre ++ bad :: post))
     = flat_map (fun n => out (filter n)) pre ++ out (filter bad).
Proof.
  intros Hpre Hbad. induction Hpre as [|n pre Hn Hpre IH];
    cbn [app rtnl_dump_filter flat_map].
  - apply Z.ltb_lt in Hbad. rewrite Hbad. auto.
  - rewrite Hn. cbn [Z.ltb Z.compare ret out].
    destruct IH as [-> ->]. rewrite app_assoc. auto.
Qed.

End ShowFacts.

(** X13.  When the request of the dump is accepted and a message of a
    tunnel kind is too short, after messages that are long enough, the show
    ends with exit status 1: what the earlier messages print has been
    printed, the later messages are not decoded, and the JSON object is
    not deleted. *)
Theorem short_message_terminates_the_show host json show_stats
        is_json_context tunneldump_req_ret fi pre bad post :
  (forall flags, 0 <= tunneldump_req_ret PF_BRIDGE fi flags) ->
  forallb holds_tunnel_header pre = true ->
  is_tunnel_kind (nlmsg_type bad) = true ->
  payload_len bad < 0 ->
  let r :=
    vni_show_dump host json show_stats is_json_context tunneldump_req_ret fi
                  (pre ++ bad :: post) in
  show_end r = show_exit 1 dump_terminated
  /\ printed_calls (show_events r)
     = flat_map (fun n => out (print_vnifilter_rtm host fi n)) pre
  /\ ~ In delete_json_obj (show_events r).
Proof.
  intros Hreq Hpre Hk Hl r. subst r. unfold vni_show_dump.
  cbv zeta.
  assert (Q : (tunneldump_req_ret PF_BRIDGE fi
                 (if negb (show_stats =? 0) then TUNNEL_MSG_FLAG_STATS else 0)
               <? 0) = false) by (apply Z.ltb_ge; apply Hreq).
  rewrite Q.
  assert (B : print_vnifilter_rtm host fi bad
              = mk_rtm_result (-1) [] [bug_wrong_nlmsg_len (payload_len bad)]).
  { rewrite print_vnifilter_rtm_len, Hk. cbn [negb].
    apply Z.ltb_lt in Hl. rewrite Hl. reflexivity. }
  assert (P : Forall (fun n => ret (print_vnifilter_rtm_filter host fi n) = 0)
                     pre).
  { apply Forall_forall. intros n Hn. unfold print_vnifilter_rtm_filter.
    apply print_vnifilter_rtm_ret.
    rewrite forallb_forall in Hpre. auto. }
  destruct (rtnl_dump_filter_stops (print_vnifilter_rtm_filter host fi)
              pre bad post P) as [R O].
  { unfold print_vnifilter_rtm_filter. rewrite B. cbn. lia. }
  unfold print_vnifilter_rtm_filter in R at 2, O at 3. rewrite B in R, O.
  cbn [ret out] in R, O. rewrite app_nil_r in O.
  rewrite R. cbn [Z.ltb Z.compare show_end show_events].
  split; [reflexivity|]. split.
  - rewrite !printed_calls_app, printed_calls_map, O.
    destruct (negb is_json_context); reflexivity.
  - rewrite !in_app_iff, in_map_iff.
    intros [[H|H]|[c [H _]]].
    + cbn in H. intuition discriminate.
    + destruct (negb is_json_context); cbn in H; intuition discriminate.
    + discriminate H.
Qed.

Lemma show_without_dev_keeps_the_filter_witness :
  no_dev_word ["-d"; "vni"] = true
  /\ show_filter_index
       (vni_show LittleEndian (fun _ => 4) (fun _ => -1) 0 0 false
                 (fun _ _ _ => 0) 3 ["-d"; "vni"] [])
     = 3.
Proof.
  split; [reflexivity|].
  exact (proj1 (proj2
                  (show_without_dev_keeps_the_filter LittleEndian
                     (fun _ => 4) (fun _ => -1) 0 0 false (fun _ _ _ => 0)
                     3 ["-d"; "vni"] [] eq_refl))).
Defined.

Lemma show_with_dev_sets_the_filter_witness :
  no_dev_word ["x"] = true
  /\ no_dev_word [] = true
  /\ vni_show LittleEndian (fun _ => 0) (fun _ => -1) 0 0 false
              (fun _ _ _ => 0) 3 ["x"; "dev"; "vxlan0"] []
     = mk_show_result (show_return (-1)) [] [] 0.
Proof.
  split; [reflexivity|]. split; [reflexivity|].
  exact (proj1
           (show_with_dev_sets_the_filter LittleEndian (fun _ => 0)
              (fun _ => -1) 0 0 false (fun _ _ _ => 0)
              3 ["x"] "vxlan0" [] [] eq_refl eq_refl)
           eq_refl).
Defined.

Lemma show_argument_errors_witness :
  no_dev_word ["x"] = true
  /\ vni_show LittleEndian (fun _ => 4) (fun _ => -1) 0 0 false
              (fun _ _ _ => 0) 3 ["x"; "dev"] []
     = mk_show_result (show_exit (-1) show_incomplete_command) [] [] 3.
Proof.
  split; [reflexivity|].
  exact (proj1
           (show_argument_errors LittleEndian (fun _ => 4) (fun _ => -1)
              0 0 false (fun _ _ _ => 0) 3 ["x"] [] eq_refl)).
Defined.

Lemma short_message_terminates_the_show_witness :
  let good := mk_nlmsghdr 24 RTM_NEWTUNNEL 0 (mk_tunnel_msg AF_BRIDGE 3) [] in
  let bad := mk_nlmsghdr 20 RTM_NEWTUNNEL 0 (mk_tunnel_msg AF_BRIDGE 3) [] in
  (forall flags : Z, 0 <= (fun _ _ _ : Z => 0) PF_BRIDGE 0 flags)
  /\ forallb holds_tunnel_header [good] = true
  /\ is_tunnel_kind (nlmsg_type bad) = true
  /\ payload_len bad < 0
  /\ show_end
       (vni_show_dump LittleEndian 0 0 false (fun _ _ _ => 0) 0
                      [good; bad; good])
     = show_exit 1 dump_terminated.
Proof.
  cbv zeta. split; [intros; cbv beta; lia|]. split; [reflexivity|].
  split; [reflexivity|]. split; [reflexivity|].
  exact (proj1
           (short_message_terminates_the_show LittleEndian 0 0 false
              (fun _ _ _ => 0) 0
              [mk_nlmsghdr 24 RTM_NEWTUNNEL 0 (mk_tunnel_msg AF_BRIDGE 3) []]
              (mk_nlmsghdr 20 RTM_NEWTUNNEL 0 (mk_tunnel_msg AF_BRIDGE 3) [])
              [mk_nlmsghdr 24 RTM_NEWTUNNEL 0 (mk_tunnel_msg AF_BRIDGE 3) []]
              (fun _ => Z.le_refl 0) eq_refl eq_refl eq_refl)).
Defined.

(* ================================================================== *)
(** ** do_vni *)
(* ================================================================== *)

Lemma parse_vni_filter_header host nb argv n reqsize group :
  let n' := snd (parse_vni_filter host nb argv n reqsize group) in
  req_nlmsg_type n' = req_nlmsg_type n
  /\ req_nlmsg_flags n' = req_nlmsg_flags n
  /\ req_tmsg n' = req_tmsg n.
Proof.
  cbv zeta. unfold parse_vni_filter. rewrite vni_loop_blocks.
  cbn [snd]. destruct n; auto.
Qed.

(** X14.  [do_vni] hands a request to [rtnl_talk] only for the commands
    [add] and [delete], spelled out: the request of [add] is of type
    RTM_NEWTUNNEL and that of [delete] of type RTM_DELTUNNEL, both for the
    bridge family, with the request flag and an interface index that is not
    0.  A first word that is none of add, delete, show, lst, list and help
    (and so the "del" of the usage text) is an unknown command; without any
    word it is a show. *)
Theorem do_vni_sends_by_command host nest_bytes get_addr ll_name_to_index
        rtnl_talk nodev json show_stats is_json_context tunneldump_req_ret
        argv daddr0 filter_index msgs :
  let res :=
    do_vni host nest_bytes get_addr ll_name_to_index rtnl_talk nodev json
           show_stats is_json_context tunneldump_req_ret argv daddr0
           filter_index msgs in
  (forall o r,
      res = modified o -> sent_request o = Some r ->
      req_nlmsg_flags r = NLM_F_REQUEST
      /\ tm_family (req_tmsg r) = PF_BRIDGE
      /\ tm_ifindex (req_tmsg r) <> 0
      /\ ((hd_error argv = Some "add" /\ req_nlmsg_type r = RTM_NEWTUNNEL)
          \/ (hd_error argv = Some "delete"
              /\ req_nlmsg_type r = RTM_DELTUNNEL)))
  /\ (forall w rest,
         argv = w :: rest ->
         ~ In w ["add"; "delete"; "show"; "lst"; "list"; "help"] ->
         res = unknown_command w)
  /\ (argv = [] ->
      res = shown (vni_show host ll_name_to_index nodev json show_stats
                            is_json_context tunneldump_req_ret filter_index
                            [] msgs)).
Proof.
  cbv zeta.
  assert (S : forall cmd rest r,
             sent_request
               (vni_modify host nest_bytes get_addr ll_name_to_index
                           rtnl_talk cmd rest daddr0) = Some r ->
             req_nlmsg_flags r = NLM_F_REQUEST
             /\ tm_family (req_tmsg r) = PF_BRIDGE
             /\ tm_ifindex (req_tmsg r) <> 0
             /\ req_nlmsg_type r = cmd).
  { intros cmd rest r H. apply vni_modify_sent in H.
    destruct H as [v [dev [ep [_ [_ [Hi [_ [-> _]]]]]]]].
    pose proof (parse_vni_filter_header host nest_bytes v
                  (empty_request cmd) sizeof_req ep) as [Ht [Hf Hm]].
    unfold with_ifindex; cbn [req_nlmsg_flags req_nlmsg_type req_tmsg
                              tm_family tm_ifindex].
    rewrite Ht, Hf, Hm. cbn. auto. }
  split; [|split].
  - intros o r. unfold do_vni. destruct argv as [|w rest]; [discriminate|].
    destruct (String.eqb w "add") eqn:Ea.
    { intros [= <-] H. apply S in H as [H1 [H2 [H3 H4]]].
      apply String.eqb_eq in Ea. subst w. cbn [hd_error]. auto 6. }
    destruct (String.eqb w "delete") eqn:Ed.
    { intros [= <-] H. apply S in H as [H1 [H2 [H3 H4]]].
      apply String.eqb_eq in Ed. subst w. cbn [hd_error]. auto 6. }
    destruct (String.eqb w "show" || String.eqb w "lst" || String.eqb w "list");
      [discriminate|].
    destruct (String.eqb w "help"); discriminate.
  - intros w rest -> Hw. unfold do_vni. cbn [In] in Hw.
    assert (N : forall k, w <> k -> String.eqb w k = false)
      by (intros k Hk; apply String.eqb_neq; exact Hk).
    rewrite !N by (intros ->; tauto). reflexivity.
  - intros ->. reflexivity.
Qed.

Lemma do_vni_sends_by_command_witness :
  do_vni LittleEndian no_image (fun _ => None) (fun _ => 4) (fun _ => 0)
         (fun _ => -1) 0 0 false (fun _ _ _ => 0)
         ["del"; "vni"; "100"; "dev"; "vxlan0"]
         (mk_inet_prefix 0 0 0 0 []) 0 []
  = unknown_command "del".
Proof.
  apply (proj1 (proj2
                  (do_vni_sends_by_command LittleEndian no_image
                     (fun _ => None) (fun _ => 4) (fun _ => 0)
                     (fun _ => -1) 0 0 false (fun _ _ _ => 0)
                     ["del"; "vni"; "100"; "dev"; "vxlan0"]
                     (mk_inet_prefix 0 0 0 0 []) 0 []))
               "del" ["vni"; "100"; "dev"; "vxlan0"] eq_refl).
  cbn [In]. intros H.
  repeat destruct H as [H|H]; try discriminate H. exact H.
Defined.

(* ================================================================== *)
(** ** Lists of VNIs: composition and round trip *)
(* ================================================================== *)

Lemma fields_not_nil c s : fields c s <> [].
Proof.
  destruct s as [|a r]; cbn [fields]; [discriminate|].
  destruct (Ascii.eqb a c); [discriminate|].
  destruct (fields c r); discriminate.
Qed.

Lemma fields_app c s1 s2 :
  fields c (s1 ++ c :: s2) = fields c s1 ++ fields c s2.
Proof.
  induction s1 as [|a r IH]; cbn [app fields].
  - rewrite Ascii.eqb_refl. reflexivity.
  - destruct (Ascii.eqb a c); [rewrite IH; reflexivity|].
    rewrite IH. pose proof (fields_not_nil c r) as Hn.
    destruct (fields c r) as [|f fs]; [congruence|reflexivity].
Qed.

Lemma tokens_app c s1 s2 :
  tokens c (s1 ++ c :: s2) = tokens c s1 ++ tokens c s2.
Proof.
  unfold tokens. rewrite fields_app. apply filter_app.
Qed.

(** X15.  A list is parsed part by part: the request for "A,B" is the
    request for "B" made on top of the request for "A", whatever the two
    strings are. *)
Theorem parse_vni_filter_of_a_joined_list host nest_bytes s1 s2 n reqsize
        group :
  parse_vni_filter host nest_bytes
    (String.append s1 (String.append "," s2)) n reqsize group
  = parse_vni_filter host nest_bytes s2
      (snd (parse_vni_filter host nest_bytes s1 n reqsize group))
      reqsize group.
Proof.
  unfold parse_vni_filter. cbn [snd]. rewrite !vni_loop_blocks.
  rewrite 2!list_ascii_of_append.
  change (list_ascii_of_string ",") with [","%char]. cbn [app].
  rewrite tokens_app, map_app.
  unfold with_attrs; cbn [req_nlmsg_type req_nlmsg_flags req_tmsg req_attrs].
  rewrite <- app_assoc. reflexivity.
Qed.


